(** * SidebarUtils: ordering of the left-hand navigation and option rows

    A shallow embedding of [src/libs/SidebarUtils.ts]:
    [compareStringDates], [getOrderedReportIDs], [getOptionData] and the
    Onyx subscription that maintains [visibleReportActionItems].

    The file imports its helpers from other files of the application
    ([ReportUtils], [OptionsListUtils], [ReportActionsUtils], [Localize],
    ...).  Each imported module is an interface here (a type class in a
    module of the same name), so that the functions below read like the
    TypeScript they come from and every theorem holds for all
    implementations of the helpers.  The helpers are taken to return
    normally. *)

From stdpp Require Import base option list strings gmap sorting pretty.
From Stdlib Require Import Ascii ZArith Lia.

Local Open Scope string_scope.
Local Open Scope list_scope.
Local Open Scope Z_scope.

(** ** JavaScript values and built-ins *)

(** Data of the Onyx store that this file only hands on to its helpers
    (policies, violations, icons, the properties of a report it never
    reads). *)
#[local] Unset Elimination Schemes.
Inductive JSValue :=
  | JSUndefined
  | JSNull
  | JSBool (b : bool)
  | JSNumber (n : Z)
  | JSString (s : string)
  | JSArray (items : list JSValue)
  | JSObject (props : list (string * JSValue)).
#[local] Set Elimination Schemes.

(** An object whose properties are enumerated: the properties in
    enumeration order. *)
Definition Obj (V : Type) : Type := list (string * V).

Definition Object_values {V} (o : Obj V) : list V := map snd o.

Definition Object_keys {V} (o : Obj V) : list string := map fst o.

(** Truthiness of the values that are used as conditions. *)
Definition truthy_string (s : string) : bool := negb (s =? "")%string.

Definition truthy_opt_string (s : option string) : bool :=
  match s with Some s => truthy_string s | None => false end.

Definition truthy_opt_bool (b : option bool) : bool := default false b.

Definition truthy_opt_number (n : option Z) : bool :=
  match n with Some n => negb (n =? 0) | None => false end.

Definition truthy (v : JSValue) : bool :=
  match v with
  | JSUndefined | JSNull => false
  | JSBool b => b
  | JSNumber n => negb (n =? 0)
  | JSString s => truthy_string s
  | JSArray _ | JSObject _ => true
  end.

(** [a === b] on strings that may be absent: [undefined] and [null] are
    different from every string, and from each other where the two
    sides are typed [string | undefined] and [string | null]. *)
Definition strict_eq (a b : option string) : bool :=
  match a, b with
  | Some x, Some y => (x =? y)%string
  | _, _ => false
  end.

(** A value inside a template literal, and [String(value)]. *)
Definition template (s : option string) : string := default "undefined" s.

(** [v?.[0]] *)
Definition index0 (v : JSValue) : JSValue :=
  match v with
  | JSString (String c _) => JSString (String c "")
  | JSArray (x :: _) => x
  | JSObject props => default JSUndefined (snd <$> List.find (λ p, (fst p =? "0")%string) props)
  | _ => JSUndefined
  end.

(** [v !== s] for a string [s] *)
Definition strict_neq_string (v : JSValue) (s : string) : bool :=
  match v with
  | JSString t => negb (t =? s)%string
  | _ => true
  end.

(** [Array.prototype.sort(compareFn)], by insertion: [x] goes in front
    of the first element that [compareFn] does not put before it.  The
    sort is stable, and the result is sorted when [compareFn] is a
    consistent comparator on the elements, which is what the language
    asks of an implementation; with a comparator that is not consistent
    the language leaves the order to the implementation. *)
Fixpoint sort_insert {A} (compareFn : A → A → Z) (x : A) (sorted : list A) : list A :=
  match sorted with
  | [] => [x]
  | y :: rest =>
      if compareFn x y <=? 0 then x :: y :: rest else y :: sort_insert compareFn x rest
  end.

Fixpoint Array_sort {A} (compareFn : A → A → Z) (l : list A) : list A :=
  match l with
  | [] => []
  | x :: rest => sort_insert compareFn x (Array_sort compareFn rest)
  end.

(** [array.forEach] whose callback pushes onto an array. *)
Definition forEach_push {A B} (callback : A → option B) (l : list A) : list B :=
  fold_left (λ pushed x, match callback x with Some y => pushed ++ [y] | None => pushed end) l [].

(** [s.trim()], for the white space of ASCII. *)
Definition is_white_space (c : ascii) : bool :=
  let n := nat_of_ascii c in
  ((9 <=? n)%nat && (n <=? 13)%nat) || (n =? 32)%nat.

Fixpoint trimStart (s : string) : string :=
  match s with
  | String c rest => if is_white_space c then trimStart rest else s
  | EmptyString => EmptyString
  end.

Definition trim (s : string) : string :=
  String.rev (trimStart (String.rev (trimStart s))).

Fixpoint strip_prefix (prefix s : string) : option string :=
  match prefix, s with
  | EmptyString, _ => Some s
  | String p prefix, String c s => if Ascii.eqb p c then strip_prefix prefix s else None
  | String _ _, EmptyString => None
  end.

(** The text from the first [>] on: what [[^>]*] leaves. *)
Fixpoint from_first_gt (s : string) : string :=
  match s with
  | String c rest => if Ascii.eqb c ">" then s else from_first_gt rest
  | EmptyString => EmptyString
  end.

(** What follows a match of [/<mention-user[^>]*><\/mention-user>/] at
    the head of [s]. *)
Definition after_mention_user (s : string) : option string :=
  strip_prefix "<mention-user" s ≫= λ attributes,
  strip_prefix "></mention-user>" (from_first_gt attributes).

Fixpoint count_mention_users (fuel : nat) (s : string) : nat :=
  match fuel, s with
  | S fuel, String _ rest =>
      match after_mention_user s with
      | Some after => S (count_mention_users fuel after)
      | None => count_mention_users fuel rest
      end
  | _, _ => 0%nat
  end.

(** [html?.match(/<mention-user[^>]*><\/mention-user>/g)?.length ?? 0] *)
Definition mention_user_matches (html : option string) : nat :=
  match html with
  | Some html => count_mention_users (String.length html) html
  | None => 0%nat
  end.

(** The outcome of code that may hit a [TypeError]. *)
Inductive Completion (A : Type) :=
  | Normal (value : A)
  | TypeError.
Arguments Normal {A} value.
Arguments TypeError {A}.

(** ** Constants *)

(** Modelled from the spec: the values of [src/CONST.ts] that the
    specification spells out: the "hidden" notification preference and
    the "error" and "info" brick-road indicators. *)
Module CONST.
Definition NOTIFICATION_PREFERENCE_HIDDEN : string := "hidden".
Definition BRICK_ROAD_INDICATOR_STATUS_ERROR : string := "error".
Definition BRICK_ROAD_INDICATOR_STATUS_INFO : string := "info".

(** The remaining constants of [src/CONST.ts] and [src/ONYXKEYS.ts]
    that the file compares with: their values are not fixed here. *)
Class Names := {
  PRIORITY_MODE_GSD : string;
  COLLECTION_REPORT_ACTIONS : string;
  ACTIONS_TYPE_CREATED : string;
  ACTIONS_TYPE_ADD_COMMENT : string;
  ACTIONS_TYPE_REPORT_PREVIEW : string;
  ROOM_CHANGE_LOG_INVITE_TO_ROOM : string;
  ROOM_CHANGE_LOG_UPDATE_ROOM_DESCRIPTION : string;
  POLICY_CHANGE_LOG_INVITE_TO_ROOM : string;
  POLICY_CHANGE_LOG_LEAVE_POLICY : string;
  POLICY_CHANGE_LOG_ADD_TAG : string;
  RED_BRICK_ROAD_PENDING_ACTION_DELETE : string;
}.
End CONST.

(** ** Data model *)

Definition Policy : Type := JSValue.

Definition Beta : Type := string.

Definition Errors : Type := Obj JSValue.

Module Report.
(** A report of the store.  [reportID] is absent on a malformed entry;
    [hasErrorsOtherThanFailedReceipt] is the property that
    [getOrderedReportIDs] adds; [rest] holds the properties that only
    the helpers read. *)
Record t := {
  reportID : option string;
  parentReportID : option string;
  parentReportActionID : option string;
  notificationPreference : option string;
  isPinned : option bool;
  lastVisibleActionCreated : option string;
  hasErrorsOtherThanFailedReceipt : option bool;
  lastActorAccountID : option Z;
  pendingFields_addWorkspaceRoom : option string;
  pendingFields_createChat : option string;
  ownerAccountID : option Z;
  managerID : option Z;
  policyID : option string;
  stateNum : option Z;
  statusNum : option Z;
  iouReportID : option string;
  hasOutstandingChildRequest : option bool;
  hasOutstandingChildTask : option bool;
  hasParentAccess : option bool;
  isWaitingOnBankAccount : option bool;
  isDeletedParentAction : option bool;
  chatType : option string;
  lastActionType : option string;
  lastMessageHtml : option string;
  type : option string;
  rest : Obj JSValue;
}.

(** [{...report, hasErrorsOtherThanFailedReceipt: true}] *)
Definition with_hasErrorsOtherThanFailedReceipt (report : t) : t :=
  {| reportID := reportID report;
     parentReportID := parentReportID report;
     parentReportActionID := parentReportActionID report;
     notificationPreference := notificationPreference report;
     isPinned := isPinned report;
     lastVisibleActionCreated := lastVisibleActionCreated report;
     hasErrorsOtherThanFailedReceipt := Some true;
     lastActorAccountID := lastActorAccountID report;
     pendingFields_addWorkspaceRoom := pendingFields_addWorkspaceRoom report;
     pendingFields_createChat := pendingFields_createChat report;
     ownerAccountID := ownerAccountID report;
     managerID := managerID report;
     policyID := policyID report;
     stateNum := stateNum report;
     statusNum := statusNum report;
     iouReportID := iouReportID report;
     hasOutstandingChildRequest := hasOutstandingChildRequest report;
     hasOutstandingChildTask := hasOutstandingChildTask report;
     hasParentAccess := hasParentAccess report;
     isWaitingOnBankAccount := isWaitingOnBankAccount report;
     isDeletedParentAction := isDeletedParentAction report;
     chatType := chatType report;
     lastActionType := lastActionType report;
     lastMessageHtml := lastMessageHtml report;
     type := type report;
     rest := rest report |}.
End Report.

Module ReportAction.
Record t := {
  actionName : option string;
  pendingAction : option string;
  (** [person?.[0]?.text] *)
  person_0_text : option string;
  rest : Obj JSValue;
}.
End ReportAction.

Definition ReportActions : Type := Obj ReportAction.t.

Module OriginalMessage.
Record t := {
  newName : option string;
  targetAccountIDs : option (list Z);
  roomName : option string;
  description : option string;
}.
End OriginalMessage.

Module Message.
Record t := {
  text : string;
  html : option string;
}.
End Message.

Module PersonalDetails.
Record t := {
  accountID : option Z;
  login : option string;
  phoneNumber : option string;
  displayName : option string;
  avatar : option JSValue;
  status : option JSValue;
  rest : Obj JSValue;
}.

(** [{}] *)
Definition empty : t :=
  {| accountID := None; login := None; phoneNumber := None; displayName := None;
     avatar := None; status := None; rest := [] |}.
End PersonalDetails.

Module DisplayNameWithTooltip.
Record t := {
  displayName : option string;
  pronouns : option string;
  rest : Obj JSValue;
}.
End DisplayNameWithTooltip.

Module MiniReport.
(** "A mini report object that contains only the necessary information
    to sort reports." *)
Record t := {
  reportID : option string;
  displayName : string;
  lastVisibleActionCreated : option string;
}.
End MiniReport.

Module OptionData.
(** The row of the sidebar.  A property that the object does not have
    (yet) is [None], as is [null]. *)
Record t := {
  text : string;
  alternateText : option string;
  allReportErrors : option Errors;
  brickRoadIndicator : option string;
  tooltipText : option string;
  subtitle : option string;
  login : option string;
  accountID : option Z;
  reportID : option string;
  phoneNumber : option string;
  isUnread : option bool;
  isUnreadWithMention : option bool;
  hasDraftComment : bool;
  keyForList : option string;
  searchText : option string;
  isPinned : option bool;
  hasOutstandingChildRequest : option bool;
  hasOutstandingChildTask : option bool;
  hasParentAccess : option bool;
  isIOUReportOwner : option bool;
  isChatRoom : bool;
  isArchivedRoom : bool;
  shouldShowSubscript : bool;
  isPolicyExpenseChat : bool;
  isMoneyRequestReport : bool;
  isExpenseRequest : bool;
  isWaitingOnBankAccount : option bool;
  isAllowedToComment : bool;
  isDeletedParentAction : option bool;
  isThread : option bool;
  isTaskReport : option bool;
  isInvoiceReport : option bool;
  parentReportAction : option ReportAction.t;
  pendingAction : option string;
  ownerAccountID : option Z;
  managerID : option Z;
  policyID : option string;
  stateNum : option Z;
  statusNum : option Z;
  iouReportID : option string;
  parentReportID : option string;
  notificationPreference : option string;
  chatType : option string;
  isSelfDM : option bool;
  participantsList : option (list PersonalDetails.t);
  icons : option (list JSValue);
  displayNamesWithTooltips : option (list DisplayNameWithTooltip.t);
  status : option JSValue;
  type : option string;
}.
End OptionData.

(** ** Imported modules *)

Module ReportUtils.
Class API := {
  isOneTransactionThread : option string → string → bool;
  isSystemChat : Report.t → bool;
  (** the properties of the argument: report, currentReportId,
      isInFocusMode, betas, policies, excludeEmptyChats,
      doesReportHaveViolations, includeSelfDM *)
  shouldReportBeInOptionList :
    Report.t → string → bool → option (list Beta) → option (Obj (option Policy)) →
    bool → bool → bool → bool;
  doesReportBelongToWorkspace : Report.t → list Z → string → bool;
  getReportName : Report.t → option Policy → string;
  requiresAttentionFromCurrentUser : Report.t → option ReportAction.t → bool;
  isArchivedRoom : Report.t → bool;
  getParticipantsAccountIDsForDisplay : Report.t → option bool → list Z;
  isChatThread : Report.t → bool;
  isChatRoom : Report.t → bool;
  isTaskReport : Report.t → bool;
  isInvoiceReport : Report.t → bool;
  isPolicyExpenseChat : Report.t → bool;
  isExpenseRequest : Report.t → bool;
  isMoneyRequestReport : Report.t → bool;
  shouldReportShowSubscript : Report.t → bool;
  isUnread : Report.t → bool;
  isUnreadWithMention : Report.t → bool;
  canUserPerformWriteAction : Report.t → bool;
  isSelfDM : Report.t → bool;
  getReportParticipantsTitle : list Z → string;
  isExpenseReport : Report.t → bool;
  getChatRoomSubtitle : Report.t → option string;
  getDisplayNamesWithTooltips :
    list PersonalDetails.t → bool → option bool → bool → list DisplayNameWithTooltip.t;
  isThread : Report.t → bool;
  formatReportLastMessageText : string → string;
  isGroupChat : Report.t → bool;
  isDeprecatedGroupDM : Report.t → bool;
  isIOUOwnedByCurrentUser : OptionData.t → bool;
  isJoinRequestInAdminRoom : Report.t → bool;
  getIcons :
    Report.t → gmap Z PersonalDetails.t → option JSValue → option string → option Z →
    option Policy → list JSValue;
}.
End ReportUtils.

Module OptionsListUtils.
Class API := {
  shouldShowViolations :
    Report.t → list Beta → option (Obj (option (list JSValue))) → bool;
  getAllReportErrors : Report.t → option ReportActions → option Errors;
  getPersonalDetailsForAccountIDs : list Z → gmap Z PersonalDetails.t → Obj PersonalDetails.t;
  getLastActorDisplayName : option PersonalDetails.t → bool → string;
  getLastMessageTextForReport : Report.t → option PersonalDetails.t → option Policy → string;
  getSearchText : Report.t → string → list PersonalDetails.t → bool → bool → string;
}.
End OptionsListUtils.

Module ReportActionsUtils.
Class API := {
  getReportAction : string → string → option ReportAction.t;
  getSortedReportActions : list ReportAction.t → list ReportAction.t;
  shouldReportActionBeVisibleAsLastAction : ReportAction.t → bool;
  isRenamedAction : option ReportAction.t → bool;
  isTaskAction : option ReportAction.t → bool;
  isRoomChangeLogAction : option ReportAction.t → bool;
  getOriginalMessage : option ReportAction.t → option OriginalMessage.t;
  getReportActionMessage : option ReportAction.t → option Message.t;
  (** the last property read of the result: [lastMessageText] *)
  getLastVisibleMessage :
    option string → ReportActions → option ReportAction.t → option string;
}.
End ReportActionsUtils.

Module Localize.
Class API := {
  translateLocal : string → string;
  translate : string → string → Obj string → string;
}.
End Localize.

Module TaskUtils.
Class API := {
  getTaskReportActionMessage : option ReportAction.t → Message.t;
}.
End TaskUtils.

Module PolicyUtils.
Class API := {
  getCleanedTagName : string → string;
}.
End PolicyUtils.

Module LocalePhoneNumber.
Class API := {
  formatPhoneNumber : string → string;
}.
End LocalePhoneNumber.

Module Str.
Class API := {
  removeSMSDomain : string → string;
  isSMSLogin : string → bool;
}.
End Str.

Module CollectionUtils.
Class API := {
  extractCollectionItemID : string → string;
}.
End CollectionUtils.

Class DraftCommentUtils := {
  hasValidDraftComment : string → bool;
}.

Class LocaleCompare := {
  localeCompare : string → string → Z;
}.

(** ** [visibleReportActionItems] and its subscription (lines 25-44) *)

Section visibleReportActionItems.
Context `{!CONST.Names, !CollectionUtils.API, !ReportActionsUtils.API}.

(** The callback of [Onyx.connect]: the state before, the arguments,
    the state after. *)
Definition onReportActions (visibleReportActionItems : gmap string ReportAction.t)
    (actions : option ReportActions) (key : option string) : gmap string ReportAction.t :=
  match actions, key with
  | Some actions, Some key =>
      if negb (truthy_string key) then visibleReportActionItems
      else
        let reportID := CollectionUtils.extractCollectionItemID key in
        let actionsArray := ReportActionsUtils.getSortedReportActions (Object_values actions) in
        let reportActionsForDisplay :=
          List.filter
            (λ reportAction,
               ReportActionsUtils.shouldReportActionBeVisibleAsLastAction reportAction
               && negb (strict_eq (ReportAction.actionName reportAction)
                          (Some CONST.ACTIONS_TYPE_CREATED)))
            actionsArray in
        match last reportActionsForDisplay with
        | Some action => <[reportID := action]> visibleReportActionItems
        | None => delete reportID visibleReportActionItems
        end
  | _, _ => visibleReportActionItems
  end.
End visibleReportActionItems.

(** ** [compareStringDates] (lines 46-54)

    [a < b] on strings compares code units; the timestamps of the
    store are ASCII text of one format. *)

Definition compareStringDates (a b : string) : Z :=
  if String.ltb a b then -1
  else if String.ltb b a then 1
  else 0.

(** ** [getOrderedReportIDs] (lines 69-201) *)

Module Buckets.
Record t := {
  pinnedAndGBRReports : list MiniReport.t;
  draftReports : list MiniReport.t;
  nonArchivedReports : list MiniReport.t;
  archivedReports : list MiniReport.t;
  errorReports : list MiniReport.t;
}.

Definition empty : t :=
  {| pinnedAndGBRReports := []; draftReports := []; nonArchivedReports := [];
     archivedReports := []; errorReports := [] |}.
End Buckets.

Section getOrderedReportIDs.
Context `{!CONST.Names, !ReportUtils.API, !OptionsListUtils.API,
          !ReportActionsUtils.API, !Localize.API, !DraftCommentUtils, !LocaleCompare}.

(** Lines 175-177, 185, 191-192: the comparator on display names. *)
Definition compareDisplayNames (a b : MiniReport.t) : Z :=
  if truthy_string (MiniReport.displayName a) && truthy_string (MiniReport.displayName b)
  then localeCompare (MiniReport.displayName a) (MiniReport.displayName b)
  else 0.

(** Lines 181 and 189: the comparator on [lastVisibleActionCreated],
    most recent first. *)
Definition compareDates (a b : MiniReport.t) : Z :=
  match MiniReport.lastVisibleActionCreated a, MiniReport.lastVisibleActionCreated b with
  | Some created_a, Some created_b =>
      if truthy_string created_a && truthy_string created_b
      then compareStringDates created_b created_a
      else 0
  | _, _ => 0
  end.

(** Lines 180-187: the comparator of the non-archived reports in the
    default mode. *)
Definition compareDatesThenDisplayNames (a b : MiniReport.t) : Z :=
  let compareDates := compareDates a b in
  if negb (compareDates =? 0) then compareDates
  else
    let compareDisplayNames := compareDisplayNames a b in
    compareDisplayNames.

Variables
  (currentReportId : option string)
  (allReports : option (Obj (option Report.t)))
  (betas : option (list Beta))
  (policies : option (Obj (option Policy)))
  (priorityMode : option string)
  (allReportActions : option (gmap string ReportActions))
  (transactionViolations : option (Obj (option (list JSValue))))
  (currentPolicyID : option string)
  (policyMemberAccountIDs : option (list Z)).

Definition isInFocusMode : bool := strict_eq priorityMode (Some CONST.PRIORITY_MODE_GSD).

Definition isInDefaultMode : bool := negb isInFocusMode.

Definition allReportsDictValues : list (option Report.t) :=
  Object_values (default [] allReports).

(** Line 91. *)
Definition doesReportHaveViolations (report : Report.t) : bool :=
  OptionsListUtils.shouldShowViolations report (default [] betas) transactionViolations.

(** Lines 90 and 94-96. *)
Definition hasErrorsOtherThanFailedReceipt (report : Report.t) : bool :=
  let reportActions :=
    default [] (allReportActions ≫= λ all,
      all !! (CONST.COLLECTION_REPORT_ACTIONS +:+ template (Report.reportID report))) in
  let allReportErrors :=
    default [] (OptionsListUtils.getAllReportErrors report (Some reportActions)) in
  doesReportHaveViolations report
  || existsb (λ error,
        strict_neq_string (index0 error)
          (Localize.translateLocal "iou.error.genericSmartscanFailureMessage"))
       (Object_values allReportErrors).

(** Line 92. *)
Definition isHidden (report : Report.t) : bool :=
  strict_eq (Report.notificationPreference report) (Some CONST.NOTIFICATION_PREFERENCE_HIDDEN).

(** Line 93. *)
Definition isFocused (report : Report.t) : bool :=
  strict_eq (Report.reportID report) currentReportId.

(** Line 108. *)
Definition shouldOverrideHidden (report : Report.t) : bool :=
  hasErrorsOtherThanFailedReceipt report || isFocused report
  || ReportUtils.isSystemChat report || truthy_opt_bool (Report.isPinned report).

(** Lines 86-127: the callback of the first [forEach]; the result is
    what it pushes onto [reportsToDisplay], if anything. *)
Definition displayedReport (entry : option Report.t) : option Report.t :=
  match entry with
  | None => None
  | Some report =>
      if ReportUtils.isOneTransactionThread (Report.reportID report)
           (default "0" (Report.parentReportID report))
      then None
      else if hasErrorsOtherThanFailedReceipt report
      then Some (Report.with_hasErrorsOtherThanFailedReceipt report)
      else if isHidden report && negb (shouldOverrideHidden report)
      then None
      else if ReportUtils.shouldReportBeInOptionList report
                (default "-1" currentReportId) isInFocusMode betas policies
                true (doesReportHaveViolations report) true
      then Some report
      else None
  end.

(** Line 147: the restriction to a workspace. *)
Definition belongsToWorkspace (report : Report.t) : bool :=
  strict_eq (Report.reportID report) currentReportId
  || ReportUtils.doesReportBelongToWorkspace report
       (default [] policyMemberAccountIDs) (default "" currentPolicyID).

(** Lines 85-127 and 145-149. *)
Definition reportsToDisplay : list Report.t :=
  let reportsToDisplay := forEach_push displayedReport allReportsDictValues in
  if truthy_string (default "" currentPolicyID)
     || (0 <? length (default [] policyMemberAccountIDs))%nat
  then List.filter belongsToWorkspace reportsToDisplay
  else reportsToDisplay.

(** Lines 153-157. *)
Definition miniReport (report : Report.t) : MiniReport.t :=
  {| MiniReport.reportID := Report.reportID report;
     MiniReport.displayName := ReportUtils.getReportName report None;
     MiniReport.lastVisibleActionCreated := Report.lastVisibleActionCreated report |}.

(** Lines 159-161: the first test of the chain. *)
Definition isPinnedOrRequiresAttention (report : Report.t) : bool :=
  let isPinned := default false (Report.isPinned report) in
  let reportAction :=
    ReportActionsUtils.getReportAction
      (default "-1" (Report.parentReportID report))
      (default "-1" (Report.parentReportActionID report)) in
  isPinned || ReportUtils.requiresAttentionFromCurrentUser report reportAction.

(** Lines 151-172: the callback of the second [forEach], which pushes
    the report onto one of the five arrays. *)
Definition pushReport (groups : Buckets.t) (report : Report.t) : Buckets.t :=
  let miniReport := miniReport report in
  let '(Buckets.Build_t pinnedAndGBRReports draftReports nonArchivedReports
          archivedReports errorReports) := groups in
  if isPinnedOrRequiresAttention report
  then Buckets.Build_t (pinnedAndGBRReports ++ [miniReport]) draftReports nonArchivedReports
         archivedReports errorReports
  else if hasValidDraftComment (default "-1" (Report.reportID report))
  then Buckets.Build_t pinnedAndGBRReports (draftReports ++ [miniReport]) nonArchivedReports
         archivedReports errorReports
  else if ReportUtils.isArchivedRoom report
  then Buckets.Build_t pinnedAndGBRReports draftReports nonArchivedReports
         (archivedReports ++ [miniReport]) errorReports
  else if truthy_opt_bool (Report.hasErrorsOtherThanFailedReceipt report)
  then Buckets.Build_t pinnedAndGBRReports draftReports nonArchivedReports
         archivedReports (errorReports ++ [miniReport])
  else Buckets.Build_t pinnedAndGBRReports draftReports (nonArchivedReports ++ [miniReport])
         archivedReports errorReports.

(** Lines 139-143 and 151-172. *)
Definition groupReports (reports : list Report.t) : Buckets.t :=
  fold_left pushReport reports Buckets.empty.

(** Lines 174-193: "Sort each group of reports accordingly". *)
Definition sortGroups (isInDefaultMode : bool) (groups : Buckets.t) : Buckets.t :=
  let pinnedAndGBRReports := Array_sort compareDisplayNames (Buckets.pinnedAndGBRReports groups) in
  let errorReports := Array_sort compareDisplayNames (Buckets.errorReports groups) in
  let draftReports := Array_sort compareDisplayNames (Buckets.draftReports groups) in
  if isInDefaultMode then
    {| Buckets.pinnedAndGBRReports := pinnedAndGBRReports;
       Buckets.draftReports := draftReports;
       Buckets.nonArchivedReports :=
         Array_sort compareDatesThenDisplayNames (Buckets.nonArchivedReports groups);
       Buckets.archivedReports := Array_sort compareDates (Buckets.archivedReports groups);
       Buckets.errorReports := errorReports |}
  else
    {| Buckets.pinnedAndGBRReports := pinnedAndGBRReports;
       Buckets.draftReports := draftReports;
       Buckets.nonArchivedReports :=
         Array_sort compareDisplayNames (Buckets.nonArchivedReports groups);
       Buckets.archivedReports := Array_sort compareDisplayNames (Buckets.archivedReports groups);
       Buckets.errorReports := errorReports |}.

(** Line 198: the five arrays in the order of the sidebar. *)
Definition flatten (groups : Buckets.t) : list MiniReport.t :=
  Buckets.pinnedAndGBRReports groups ++ Buckets.errorReports groups
  ++ Buckets.draftReports groups ++ Buckets.nonArchivedReports groups
  ++ Buckets.archivedReports groups.

(** Line 198: [report?.reportID ?? '-1']. *)
Definition identifier (reportID : option string) : string :=
  default "-1" reportID.

Definition getOrderedReportIDs : list string :=
  let LHNReports :=
    map (λ report, identifier (MiniReport.reportID report))
      (flatten (sortGroups isInDefaultMode (groupReports reportsToDisplay))) in
  LHNReports.
End getOrderedReportIDs.

(** ** [getOptionData] (lines 206-458) *)

Definition Completion_bind {A B} (c : Completion A) (k : A → Completion B) : Completion B :=
  match c with
  | Normal value => k value
  | TypeError => TypeError
  end.

Section getOptionData.
Context `{!CONST.Names, !ReportUtils.API, !OptionsListUtils.API, !ReportActionsUtils.API,
          !Localize.API, !TaskUtils.API, !PolicyUtils.API, !LocalePhoneNumber.API, !Str.API}.

(** The state of the file, and the arguments once [report] and
    [personalDetails] are known to be present (line 226). *)
Variables
  (visibleReportActionItems : gmap string ReportAction.t)
  (report : Report.t)
  (reportActions : option ReportActions)
  (personalDetails : gmap Z PersonalDetails.t)
  (preferredLocale : string)
  (policy : option Policy)
  (parentReportAction : option ReportAction.t)
  (hasViolations : bool).

(** Line 233. *)
Definition allReportErrors : option Errors :=
  OptionsListUtils.getAllReportErrors report reportActions.

(** Lines 262-267. *)
Definition participantAccountIDs : list Z :=
  ReportUtils.getParticipantsAccountIDsForDisplay report None.

Definition visibleParticipantAccountIDs : list Z :=
  ReportUtils.getParticipantsAccountIDsForDisplay report (Some true).

Definition participantPersonalDetailList : list PersonalDetails.t :=
  Object_values
    (OptionsListUtils.getPersonalDetailsForAccountIDs participantAccountIDs personalDetails).

Definition personalDetail : PersonalDetails.t :=
  default PersonalDetails.empty (head participantPersonalDetailList).

Definition hasErrors : bool :=
  negb (length (Object_keys (default [] allReportErrors)) =? 0)%nat.

(** Lines 306-311. *)
Definition hasMultipleParticipants : bool :=
  (1 <? length participantPersonalDetailList)%nat || ReportUtils.isChatRoom report
  || ReportUtils.isPolicyExpenseChat report || ReportUtils.isExpenseReport report.

Definition subtitle : option string := ReportUtils.getChatRoomSubtitle report.

Definition login : string :=
  Str.removeSMSDomain (default "" (PersonalDetails.login personalDetail)).

Definition status : JSValue :=
  default (JSString "") (PersonalDetails.status personalDetail).

Definition formattedLogin : string :=
  if Str.isSMSLogin login then LocalePhoneNumber.formatPhoneNumber login else login.

(** Lines 313-319: "We only create tooltips for the first 10 users or
    so since some reports have hundreds of users, causing performance
    to degrade." *)
Definition displayNamesWithTooltips : list DisplayNameWithTooltip.t :=
  ReportUtils.getDisplayNamesWithTooltips (take 10 participantPersonalDetailList)
    hasMultipleParticipants None (ReportUtils.isSelfDM report).

(** Lines 342 and 326: [visibleReportActionItems[report.reportID]]. *)
Definition lastAction : option ReportAction.t :=
  visibleReportActionItems !! template (Report.reportID report).

(** Lines 321-334. *)
Definition lastActorDetails : option PersonalDetails.t :=
  let lastActorDetails :=
    if truthy_opt_number (Report.lastActorAccountID report)
    then Report.lastActorAccountID report ≫= λ accountID, personalDetails !! accountID
    else None in
  match lastActorDetails, lastAction with
  | None, Some action =>
      let lastActorDisplayName := ReportAction.person_0_text action in
      if truthy_opt_string lastActorDisplayName
      then Some {| PersonalDetails.displayName := lastActorDisplayName;
                   PersonalDetails.accountID := Report.lastActorAccountID report;
                   PersonalDetails.login := None;
                   PersonalDetails.phoneNumber := None;
                   PersonalDetails.avatar := None;
                   PersonalDetails.status := None;
                   PersonalDetails.rest := [] |}
      else None
  | _, _ => lastActorDetails
  end.

(** Lines 336-345. *)
Definition lastActorDisplayName : string :=
  OptionsListUtils.getLastActorDisplayName lastActorDetails hasMultipleParticipants.

Definition lastMessageTextFromReport : string :=
  OptionsListUtils.getLastMessageTextForReport report lastActorDetails policy.

Definition lastMessageText : string := Str.removeSMSDomain lastMessageTextFromReport.

Definition isThreadMessage : bool :=
  ReportUtils.isThread report
  && strict_eq (lastAction ≫= ReportAction.actionName) (Some CONST.ACTIONS_TYPE_ADD_COMMENT)
  && negb (strict_eq (lastAction ≫= ReportAction.pendingAction)
             (Some CONST.RED_BRICK_ROAD_PENDING_ACTION_DELETE)).

(** Line 348. *)
Definition lastActionName : option string :=
  match lastAction ≫= ReportAction.actionName with
  | Some actionName => Some actionName
  | None => Report.lastActionType report
  end.

Definition isInviteToRoom (actionName : option string) : bool :=
  strict_eq actionName (Some CONST.ROOM_CHANGE_LOG_INVITE_TO_ROOM)
  || strict_eq actionName (Some CONST.POLICY_CHANGE_LOG_INVITE_TO_ROOM).

(** Lines 356-378: the text for a room change log.  Line 369 reads
    [lastAction.actionName] with no guard of its own. *)
Definition roomChangeLogText : Completion string :=
  let lastActionOriginalMessage :=
    if truthy_opt_string (lastAction ≫= ReportAction.actionName)
    then ReportActionsUtils.getOriginalMessage lastAction
    else None in
  let targetAccountIDs :=
    default [] (lastActionOriginalMessage ≫= OriginalMessage.targetAccountIDs) in
  let targetAccountIDsLength :=
    if negb (length targetAccountIDs =? 0)%nat then length targetAccountIDs
    else mention_user_matches (Report.lastMessageHtml report) in
  let verb :=
    if isInviteToRoom lastActionName
    then Localize.translate preferredLocale "workspace.invite.invited" []
    else Localize.translate preferredLocale "workspace.invite.removed" [] in
  let users :=
    Localize.translate preferredLocale
      (if (1 <? targetAccountIDsLength)%nat then "workspace.invite.users"
       else "workspace.invite.user") [] in
  let alternateText :=
    trim (lastActorDisplayName +:+ " " +:+ verb +:+ " " +:+ pretty targetAccountIDsLength
          +:+ " " +:+ users) in
  let roomName := default "" (lastActionOriginalMessage ≫= OriginalMessage.roomName) in
  Completion_bind
    (if truthy_string roomName then
       match lastAction with
       | None => TypeError
       | Some lastAction =>
           let preposition :=
             if isInviteToRoom (ReportAction.actionName lastAction)
             then " " +:+ Localize.translate preferredLocale "workspace.invite.to" []
             else " " +:+ Localize.translate preferredLocale "workspace.invite.from" [] in
           Normal (alternateText +:+ preposition +:+ " " +:+ roomName)
       end
     else Normal alternateText)
    (λ alternateText,
       if strict_eq lastActionName (Some CONST.ROOM_CHANGE_LOG_UPDATE_ROOM_DESCRIPTION)
       then Normal (trim (lastActorDisplayName +:+ " "
                          +:+ Localize.translate preferredLocale "roomChangeLog.updateRoomDescription" []
                          +:+ " "
                          +:+ template (lastActionOriginalMessage ≫= OriginalMessage.description)))
       else Normal alternateText).

(** Lines 400-418: the beginning of the chat history with the names of
    the participants. *)
Definition beginningOfChatHistory : string :=
  Localize.translate preferredLocale "reportActionsView.beginningOfChatHistory" []
  +:+ String.concat " "
        (imap (λ index tooltip,
           let displayName := DisplayNameWithTooltip.displayName tooltip in
           let pronouns := DisplayNameWithTooltip.pronouns tooltip in
           let formattedText :=
             if negb (truthy_opt_string pronouns) then displayName
             else Some (template displayName +:+ " (" +:+ template pronouns +:+ ")") in
           let length := Z.of_nat (length displayNamesWithTooltips) in
           if Z.of_nat index =? length - 1 then template formattedText +:+ "."
           else if Z.of_nat index =? length - 2
           then template formattedText +:+ " " +:+ Localize.translate preferredLocale "common.and" []
           else if Z.of_nat index <? length - 2 then template formattedText +:+ ","
           else "")
         displayNamesWithTooltips).

(** Lines 347-426: the value of [result.alternateText]. *)
Definition alternateText : Completion (option string) :=
  if (ReportUtils.isChatRoom report || ReportUtils.isPolicyExpenseChat report
      || ReportUtils.isChatThread report || ReportUtils.isTaskReport report || isThreadMessage)
     && negb (ReportUtils.isArchivedRoom report)
  then
    if ReportActionsUtils.isRenamedAction lastAction then
      let newName :=
        default "" (ReportActionsUtils.getOriginalMessage lastAction ≫= OriginalMessage.newName) in
      Normal (Some (Localize.translate preferredLocale "newRoomPage.roomRenamedTo"
                      [("newName", newName)]))
    else if ReportActionsUtils.isTaskAction lastAction then
      Normal (Some (ReportUtils.formatReportLastMessageText
                      (Message.text (TaskUtils.getTaskReportActionMessage lastAction))))
    else if ReportActionsUtils.isRoomChangeLogAction lastAction then
      Completion_bind roomChangeLogText (λ alternateText, Normal (Some alternateText))
    else if strict_eq (lastAction ≫= ReportAction.actionName)
              (Some CONST.POLICY_CHANGE_LOG_LEAVE_POLICY)
    then Normal (Some (Localize.translateLocal "workspace.invite.leftWorkspace"))
    else if negb (strict_eq (lastAction ≫= ReportAction.actionName)
                    (Some CONST.ACTIONS_TYPE_REPORT_PREVIEW))
            && truthy_string lastActorDisplayName && truthy_string lastMessageTextFromReport
    then Normal (Some (lastActorDisplayName +:+ ": " +:+ lastMessageText))
    else if strict_eq (lastAction ≫= ReportAction.actionName)
              (Some CONST.POLICY_CHANGE_LOG_ADD_TAG)
    then
      Normal (Some (PolicyUtils.getCleanedTagName
                      (default "" (Message.text
                                   <$> ReportActionsUtils.getReportActionMessage lastAction))))
    else
      let alternateText :=
        if (0 <? String.length lastMessageTextFromReport)%nat then Some lastMessageText
        else ReportActionsUtils.getLastVisibleMessage (Report.reportID report) [] lastAction in
      if negb (truthy_opt_string alternateText)
      then Normal (Some (Localize.translate preferredLocale "report.noActivityYet" []))
      else Normal alternateText
  else
    let lastMessageText :=
      if negb (truthy_string lastMessageText) then
        if ReportUtils.isSystemChat report
        then Localize.translate preferredLocale "reportActionsView.beginningOfChatHistorySystemDM" []
        else if ReportUtils.isSelfDM report
        then Localize.translate preferredLocale "reportActionsView.beginningOfChatHistorySelfDM" []
        else beginningOfChatHistory
      else lastMessageText in
    Normal (Some
      (if (ReportUtils.isGroupChat report || ReportUtils.isDeprecatedGroupDM report)
          && truthy_string lastActorDisplayName
       then lastActorDisplayName +:+ ": " +:+ lastMessageText
       else if truthy_string lastMessageText then lastMessageText
       else formattedLogin)).

(** Lines 230-304 and 347-426: [result] when line 428 is reached. *)
Definition resultAtLine428 (alternateText : option string) : OptionData.t :=
  {| OptionData.text := "";
     OptionData.alternateText := alternateText;
     OptionData.allReportErrors := allReportErrors;
     OptionData.brickRoadIndicator :=
       Some (if hasErrors || hasViolations then CONST.BRICK_ROAD_INDICATOR_STATUS_ERROR else "");
     OptionData.tooltipText :=
       Some (ReportUtils.getReportParticipantsTitle visibleParticipantAccountIDs);
     OptionData.subtitle := None;
     OptionData.login := None;
     OptionData.accountID := None;
     OptionData.reportID := Report.reportID report;
     OptionData.phoneNumber := None;
     OptionData.isUnread :=
       Some (ReportUtils.isUnread report && truthy_opt_number (Report.lastActorAccountID report));
     OptionData.isUnreadWithMention := Some (ReportUtils.isUnreadWithMention report);
     OptionData.hasDraftComment := false;
     OptionData.keyForList := Some (template (Report.reportID report));
     OptionData.searchText := None;
     OptionData.isPinned := Report.isPinned report;
     OptionData.hasOutstandingChildRequest := Report.hasOutstandingChildRequest report;
     OptionData.hasOutstandingChildTask := Report.hasOutstandingChildTask report;
     OptionData.hasParentAccess := Report.hasParentAccess report;
     OptionData.isIOUReportOwner := None;
     OptionData.isChatRoom := ReportUtils.isChatRoom report;
     OptionData.isArchivedRoom := ReportUtils.isArchivedRoom report;
     OptionData.shouldShowSubscript := ReportUtils.shouldReportShowSubscript report;
     OptionData.isPolicyExpenseChat := ReportUtils.isPolicyExpenseChat report;
     OptionData.isMoneyRequestReport := ReportUtils.isMoneyRequestReport report;
     OptionData.isExpenseRequest := ReportUtils.isExpenseRequest report;
     OptionData.isWaitingOnBankAccount := Report.isWaitingOnBankAccount report;
     OptionData.isAllowedToComment := ReportUtils.canUserPerformWriteAction report;
     OptionData.isDeletedParentAction := Report.isDeletedParentAction report;
     OptionData.isThread := Some (ReportUtils.isChatThread report);
     OptionData.isTaskReport := Some (ReportUtils.isTaskReport report);
     OptionData.isInvoiceReport := Some (ReportUtils.isInvoiceReport report);
     OptionData.parentReportAction := parentReportAction;
     OptionData.pendingAction :=
       match Report.pendingFields_addWorkspaceRoom report with
       | Some pending => Some pending
       | None => Report.pendingFields_createChat report
       end;
     OptionData.ownerAccountID := Report.ownerAccountID report;
     OptionData.managerID := Report.managerID report;
     OptionData.policyID := Report.policyID report;
     OptionData.stateNum := Report.stateNum report;
     OptionData.statusNum := Report.statusNum report;
     OptionData.iouReportID := Report.iouReportID report;
     OptionData.parentReportID := Some (default "-1" (Report.parentReportID report));
     OptionData.notificationPreference := Report.notificationPreference report;
     OptionData.chatType := Report.chatType report;
     OptionData.isSelfDM := Some (ReportUtils.isSelfDM report);
     OptionData.participantsList := None;
     OptionData.icons := None;
     OptionData.displayNamesWithTooltips := None;
     OptionData.status := None;
     OptionData.type := None |}.

(** Lines 428-457: the rest of the assignments to [result]. *)
Definition completeResult (result : OptionData.t) : OptionData.t :=
  let isIOUReportOwner := ReportUtils.isIOUOwnedByCurrentUser result in
  let isJoinRequestInAdminRoom := ReportUtils.isJoinRequestInAdminRoom report in
  let isPinned := if isJoinRequestInAdminRoom then Some true else OptionData.isPinned result in
  let isUnread := if isJoinRequestInAdminRoom then Some true else OptionData.isUnread result in
  let brickRoadIndicator :=
    if isJoinRequestInAdminRoom then Some CONST.BRICK_ROAD_INDICATOR_STATUS_INFO
    else OptionData.brickRoadIndicator result in
  let accountID :=
    if negb hasMultipleParticipants then PersonalDetails.accountID personalDetail
    else OptionData.accountID result in
  let login :=
    if negb hasMultipleParticipants then PersonalDetails.login personalDetail
    else OptionData.login result in
  let phoneNumber :=
    if negb hasMultipleParticipants then PersonalDetails.phoneNumber personalDetail
    else OptionData.phoneNumber result in
  let reportName := ReportUtils.getReportName report policy in
  {| OptionData.text := reportName;
     OptionData.alternateText := OptionData.alternateText result;
     OptionData.allReportErrors := OptionData.allReportErrors result;
     OptionData.brickRoadIndicator := brickRoadIndicator;
     OptionData.tooltipText := OptionData.tooltipText result;
     OptionData.subtitle := subtitle;
     OptionData.login := login;
     OptionData.accountID := accountID;
     OptionData.reportID := OptionData.reportID result;
     OptionData.phoneNumber := phoneNumber;
     OptionData.isUnread := isUnread;
     OptionData.isUnreadWithMention := OptionData.isUnreadWithMention result;
     OptionData.hasDraftComment := OptionData.hasDraftComment result;
     OptionData.keyForList := OptionData.keyForList result;
     OptionData.searchText :=
       Some (OptionsListUtils.getSearchText report reportName participantPersonalDetailList
               (OptionData.isChatRoom result || OptionData.isPolicyExpenseChat result)
               (truthy_opt_bool (OptionData.isThread result)));
     OptionData.isPinned := isPinned;
     OptionData.hasOutstandingChildRequest := OptionData.hasOutstandingChildRequest result;
     OptionData.hasOutstandingChildTask := OptionData.hasOutstandingChildTask result;
     OptionData.hasParentAccess := OptionData.hasParentAccess result;
     OptionData.isIOUReportOwner := Some isIOUReportOwner;
     OptionData.isChatRoom := OptionData.isChatRoom result;
     OptionData.isArchivedRoom := OptionData.isArchivedRoom result;
     OptionData.shouldShowSubscript := OptionData.shouldShowSubscript result;
     OptionData.isPolicyExpenseChat := OptionData.isPolicyExpenseChat result;
     OptionData.isMoneyRequestReport := OptionData.isMoneyRequestReport result;
     OptionData.isExpenseRequest := OptionData.isExpenseRequest result;
     OptionData.isWaitingOnBankAccount := OptionData.isWaitingOnBankAccount result;
     OptionData.isAllowedToComment := OptionData.isAllowedToComment result;
     OptionData.isDeletedParentAction := OptionData.isDeletedParentAction result;
     OptionData.isThread := OptionData.isThread result;
     OptionData.isTaskReport := OptionData.isTaskReport result;
     OptionData.isInvoiceReport := OptionData.isInvoiceReport result;
     OptionData.parentReportAction := OptionData.parentReportAction result;
     OptionData.pendingAction := OptionData.pendingAction result;
     OptionData.ownerAccountID := OptionData.ownerAccountID result;
     OptionData.managerID := OptionData.managerID result;
     OptionData.policyID := OptionData.policyID result;
     OptionData.stateNum := OptionData.stateNum result;
     OptionData.statusNum := OptionData.statusNum result;
     OptionData.iouReportID := OptionData.iouReportID result;
     OptionData.parentReportID := OptionData.parentReportID result;
     OptionData.notificationPreference := OptionData.notificationPreference result;
     OptionData.chatType := OptionData.chatType result;
     OptionData.isSelfDM := OptionData.isSelfDM result;
     OptionData.participantsList := Some participantPersonalDetailList;
     OptionData.icons :=
       Some (ReportUtils.getIcons report personalDetails (PersonalDetails.avatar personalDetail)
               (PersonalDetails.login personalDetail) (PersonalDetails.accountID personalDetail)
               policy);
     OptionData.displayNamesWithTooltips := Some displayNamesWithTooltips;
     OptionData.status := if truthy status then Some status else OptionData.status result;
     OptionData.type := Report.type report |}.

(** Lines 230-457. *)
Definition optionData : Completion OptionData.t :=
  Completion_bind alternateText (λ alternateText,
    Normal (completeResult (resultAtLine428 alternateText))).
End getOptionData.

Section getOptionData_entry.
Context `{!CONST.Names, !ReportUtils.API, !OptionsListUtils.API, !ReportActionsUtils.API,
          !Localize.API, !TaskUtils.API, !PolicyUtils.API, !LocalePhoneNumber.API, !Str.API}.

(** Lines 206-228 and 457: [undefined] is [Normal None]. *)
Definition getOptionData (visibleReportActionItems : gmap string ReportAction.t)
    (report : option Report.t) (reportActions : option ReportActions)
    (personalDetails : option (gmap Z PersonalDetails.t)) (preferredLocale : string)
    (policy : option Policy) (parentReportAction : option ReportAction.t)
    (hasViolations : bool) : Completion (option OptionData.t) :=
  match report, personalDetails with
  | Some report, Some personalDetails =>
      Completion_bind
        (optionData visibleReportActionItems report reportActions personalDetails
           preferredLocale policy parentReportAction hasViolations)
        (λ result, Normal (Some result))
  | _, _ => Normal None
  end.
End getOptionData_entry.

(** ** The vocabulary of the specification *)

(** The five groups of the sidebar, in the order in which line 198
    concatenates them. *)
Inductive Bucket := PinnedGBR | ErrorBucket | DraftBucket | DefaultBucket | ArchivedBucket.

#[global] Instance Bucket_eq_dec : EqDecision Bucket.
Proof. solve_decision. Defined.

Definition rank (bucket : Bucket) : nat :=
  match bucket with
  | PinnedGBR => 0
  | ErrorBucket => 1
  | DraftBucket => 2
  | DefaultBucket => 3
  | ArchivedBucket => 4
  end.

Section vocabulary.
Context `{!CONST.Names, !ReportUtils.API, !OptionsListUtils.API,
          !ReportActionsUtils.API, !Localize.API, !DraftCommentUtils, !LocaleCompare}.

(** The partition as the specification words it: "(a) pinned OR
    requires-attention-from-current-user: pinned/GBR; else (b) has an
    unresolved draft comment: drafts; else (c) is archived: archived;
    else (d) carries the forced-visible error flag: errors; else (e)
    default". *)
Definition bucketOf (report : Report.t) : Bucket :=
  if isPinnedOrRequiresAttention report then PinnedGBR
  else if hasValidDraftComment (default "-1" (Report.reportID report)) then DraftBucket
  else if ReportUtils.isArchivedRoom report then ArchivedBucket
  else if truthy_opt_bool (Report.hasErrorsOtherThanFailedReceipt report) then ErrorBucket
  else DefaultBucket.

Definition inBucket (bucket : Bucket) (report : Report.t) : bool :=
  bool_decide (bucketOf report = bucket).

(** The identifier that the output shows for a report. *)
Definition reportIdentifier (report : Report.t) : string :=
  identifier (Report.reportID report).

(** The reports of the collection, without its empty entries. *)
Definition inputReports (allReports : option (Obj (option Report.t))) : list Report.t :=
  omap id (allReportsDictValues allReports).

(** "Both have a [lastVisibleActionCreated] timestamp", "have a display
    name": the values are truthy. *)
Definition hasTimestamp (report : MiniReport.t) : Prop :=
  truthy_opt_string (MiniReport.lastVisibleActionCreated report) = true.

Definition hasDisplayName (report : MiniReport.t) : Prop :=
  truthy_string (MiniReport.displayName report) = true.

Definition created (report : MiniReport.t) : string :=
  default "" (MiniReport.lastVisibleActionCreated report).



Definition byDisplayName (a b : MiniReport.t) : Prop :=
  localeCompare (MiniReport.displayName a) (MiniReport.displayName b) ≤ 0.



(** A comparator that is consistent on the strings of [names]: it
    orders any two of them one way or the other, and transitively. *)
Definition ConsistentOn (compareFn : string → string → Z) (names : list string) : Prop :=
  (∀ a b, a ∈ names → b ∈ names → 0 < compareFn a b → compareFn b a ≤ 0)
  ∧ (∀ a b c, a ∈ names → b ∈ names → c ∈ names →
       compareFn a b ≤ 0 → compareFn b c ≤ 0 → compareFn a c ≤ 0).

(** The same report with another timestamp. *)
Definition withTimestamp (retime : MiniReport.t → option string) (report : MiniReport.t) :
    MiniReport.t :=
  {| MiniReport.reportID := MiniReport.reportID report;
     MiniReport.displayName := MiniReport.displayName report;
     MiniReport.lastVisibleActionCreated := retime report |}.

Definition retimeGroups (retime : MiniReport.t → option string) (groups : Buckets.t) :
    Buckets.t :=
  {| Buckets.pinnedAndGBRReports := withTimestamp retime <$> Buckets.pinnedAndGBRReports groups;
     Buckets.draftReports := withTimestamp retime <$> Buckets.draftReports groups;
     Buckets.nonArchivedReports := withTimestamp retime <$> Buckets.nonArchivedReports groups;
     Buckets.archivedReports := withTimestamp retime <$> Buckets.archivedReports groups;
     Buckets.errorReports := withTimestamp retime <$> Buckets.errorReports groups |}.

(** "The report has at least one error other than the benign
    receipt-scan-failure message", with the test of line 96. *)
Definition hasErrorOtherThanFailedReceiptScan (errors : option Errors) : bool :=
  existsb (λ error,
     strict_neq_string (index0 error)
       (Localize.translateLocal "iou.error.genericSmartscanFailureMessage"))
    (Object_values (default [] errors)).

(** What line 101 or line 125 pushes for a report that is displayed. *)
Definition pushedReport (allReportActions : option (gmap string ReportActions))
    (betas : option (list Beta)) (transactionViolations : option (Obj (option (list JSValue))))
    (report : Report.t) : Report.t :=
  if hasErrorsOtherThanFailedReceipt betas allReportActions transactionViolations report
  then Report.with_hasErrorsOtherThanFailedReceipt report
  else report.

(** [a] is of the bucket of [b] or of an earlier one. *)
Definition bucketOrder (a b : Report.t) : Prop :=
  (rank (bucketOf a) ≤ rank (bucketOf b))%nat.

(** The comparator of a group, on the reports themselves. *)
Definition onReports (compareFn : MiniReport.t → MiniReport.t → Z) (a b : Report.t) : Z :=
  compareFn (miniReport a) (miniReport b).

(** Lines 179-193: the comparators of the non-archived and of the
    archived reports in a priority mode. *)
Definition compareOthers (priorityMode : option string) : MiniReport.t → MiniReport.t → Z :=
  if isInDefaultMode priorityMode then compareDatesThenDisplayNames else compareDisplayNames.

Definition compareArchived (priorityMode : option string) : MiniReport.t → MiniReport.t → Z :=
  if isInDefaultMode priorityMode then compareDates else compareDisplayNames.

(** Modelled from the spec: [ReportUtils.getDisplayNamesWithTooltips]
    (src/libs/ReportUtils.ts) is not among the sources.  "Derive
    display-name tooltips for at most the first 10 participants": the
    helper derives the tooltips of the personal details it is given, at
    most one for each. *)
Definition tooltipPerParticipant : Prop :=
  ∀ personalDetailsList shouldUseShortForm shouldFallbackToHidden shouldAddCurrentUserPostfix,
    (length (ReportUtils.getDisplayNamesWithTooltips personalDetailsList shouldUseShortForm
               shouldFallbackToHidden shouldAddCurrentUserPostfix)
     ≤ length personalDetailsList)%nat.
End vocabulary.

(** ** A small implementation of the imported modules

    Enough of the helpers to run [getOrderedReportIDs] and
    [getOptionData] on concrete stores.  The helpers read what the
    application keeps in the properties of a report: its name
    ([reportName]), its errors ([errors]) and its participants. *)

Module Sample.
Definition property (name : string) (object : Obj JSValue) : JSValue :=
  default JSUndefined (snd <$> List.find (λ p, (fst p =? name)%string) object).

Definition compareCodeUnits (a b : string) : Z :=
  match String.compare a b with
  | Lt => -1
  | Eq => 0
  | Gt => 1
  end.

Definition names : CONST.Names :=
  {| CONST.PRIORITY_MODE_GSD := "gsd";
     CONST.COLLECTION_REPORT_ACTIONS := "reportActions_";
     CONST.ACTIONS_TYPE_CREATED := "CREATED";
     CONST.ACTIONS_TYPE_ADD_COMMENT := "ADDCOMMENT";
     CONST.ACTIONS_TYPE_REPORT_PREVIEW := "REPORTPREVIEW";
     CONST.ROOM_CHANGE_LOG_INVITE_TO_ROOM := "INVITETOROOM";
     CONST.ROOM_CHANGE_LOG_UPDATE_ROOM_DESCRIPTION := "UPDATEROOMDESCRIPTION";
     CONST.POLICY_CHANGE_LOG_INVITE_TO_ROOM := "POLICYCHANGELOG_INVITETOROOM";
     CONST.POLICY_CHANGE_LOG_LEAVE_POLICY := "POLICYCHANGELOG_LEAVE_POLICY";
     CONST.POLICY_CHANGE_LOG_ADD_TAG := "POLICYCHANGELOG_ADD_TAG";
     CONST.RED_BRICK_ROAD_PENDING_ACTION_DELETE := "delete" |}.

Definition reportName (report : Report.t) : string :=
  match property "reportName" (Report.rest report) with
  | JSString name => name
  | _ => ""
  end.

Definition participants (report : Report.t) : list Z :=
  match property "participants" (Report.rest report) with
  | JSArray accountIDs =>
      omap (λ accountID, match accountID with JSNumber n => Some n | _ => None end) accountIDs
  | _ => []
  end.

Definition isArchived (report : Report.t) : bool :=
  bool_decide (Report.statusNum report = Some 2) && bool_decide (Report.stateNum report = Some 2).

Definition reportUtils : ReportUtils.API :=
  {| ReportUtils.isOneTransactionThread := λ _ _, false;
     ReportUtils.isSystemChat := λ report, strict_eq (Report.chatType report) (Some "system");
     ReportUtils.shouldReportBeInOptionList := λ report _ _ _ _ _ _ _,
       bool_decide (is_Some (Report.reportID report))
       && bool_decide (is_Some (Report.type report));
     ReportUtils.doesReportBelongToWorkspace := λ report _ policyID,
       strict_eq (Report.policyID report) (Some policyID);
     ReportUtils.getReportName := λ report _, reportName report;
     ReportUtils.requiresAttentionFromCurrentUser := λ report _,
       truthy_opt_bool (Report.hasOutstandingChildRequest report);
     ReportUtils.isArchivedRoom := isArchived;
     ReportUtils.getParticipantsAccountIDsForDisplay := λ report _, participants report;
     ReportUtils.isChatThread := λ _, false;
     ReportUtils.isChatRoom := λ report, strict_eq (Report.chatType report) (Some "policyRoom");
     ReportUtils.isTaskReport := λ report, strict_eq (Report.type report) (Some "task");
     ReportUtils.isInvoiceReport := λ report, strict_eq (Report.type report) (Some "invoice");
     ReportUtils.isPolicyExpenseChat := λ report,
       strict_eq (Report.chatType report) (Some "policyExpenseChat");
     ReportUtils.isExpenseRequest := λ _, false;
     ReportUtils.isMoneyRequestReport := λ report,
       strict_eq (Report.type report) (Some "iou") || strict_eq (Report.type report) (Some "expense");
     ReportUtils.shouldReportShowSubscript := λ _, false;
     ReportUtils.isUnread := λ report, truthy (property "unread" (Report.rest report));
     ReportUtils.isUnreadWithMention := λ _, false;
     ReportUtils.canUserPerformWriteAction := λ report, negb (isArchived report);
     ReportUtils.isSelfDM := λ report, strict_eq (Report.chatType report) (Some "selfDM");
     ReportUtils.getReportParticipantsTitle := λ accountIDs,
       String.concat ", " (pretty <$> accountIDs);
     ReportUtils.isExpenseReport := λ report, strict_eq (Report.type report) (Some "expense");
     ReportUtils.getChatRoomSubtitle := λ _, None;
     ReportUtils.getDisplayNamesWithTooltips := λ personalDetailsList _ _ _,
       (λ details,
          {| DisplayNameWithTooltip.displayName := PersonalDetails.displayName details;
             DisplayNameWithTooltip.pronouns := None;
             DisplayNameWithTooltip.rest := [] |}) <$> personalDetailsList;
     ReportUtils.isThread := λ _, false;
     ReportUtils.formatReportLastMessageText := λ text, text;
     ReportUtils.isGroupChat := λ report, strict_eq (Report.chatType report) (Some "group");
     ReportUtils.isDeprecatedGroupDM := λ _, false;
     ReportUtils.isIOUOwnedByCurrentUser := λ _, false;
     ReportUtils.isJoinRequestInAdminRoom := λ report,
       truthy (property "joinRequest" (Report.rest report));
     ReportUtils.getIcons := λ _ _ _ _ _ _, [] |}.

Definition optionsListUtils : OptionsListUtils.API :=
  {| OptionsListUtils.shouldShowViolations := λ _ _ _, false;
     OptionsListUtils.getAllReportErrors := λ report _,
       match property "errors" (Report.rest report) with
       | JSObject errors => Some errors
       | _ => Some []
       end;
     OptionsListUtils.getPersonalDetailsForAccountIDs := λ accountIDs personalDetails,
       omap (λ accountID, (λ details, (pretty accountID, details)) <$> personalDetails !! accountID)
         accountIDs;
     OptionsListUtils.getLastActorDisplayName := λ lastActorDetails _,
       default "" (lastActorDetails ≫= PersonalDetails.displayName);
     OptionsListUtils.getLastMessageTextForReport := λ report _ _,
       match property "lastMessageText" (Report.rest report) with
       | JSString text => text
       | _ => ""
       end;
     OptionsListUtils.getSearchText := λ _ reportName _ _ _, reportName |}.

Definition reportActionsUtils : ReportActionsUtils.API :=
  {| ReportActionsUtils.getReportAction := λ _ _, None;
     ReportActionsUtils.getSortedReportActions := λ actions, actions;
     ReportActionsUtils.shouldReportActionBeVisibleAsLastAction := λ _, true;
     ReportActionsUtils.isRenamedAction := λ action,
       strict_eq (action ≫= ReportAction.actionName) (Some "RENAMED");
     ReportActionsUtils.isTaskAction := λ _, false;
     ReportActionsUtils.isRoomChangeLogAction := λ action,
       strict_eq (action ≫= ReportAction.actionName) (Some "INVITETOROOM");
     ReportActionsUtils.getOriginalMessage := λ _, None;
     ReportActionsUtils.getReportActionMessage := λ _, None;
     ReportActionsUtils.getLastVisibleMessage := λ _ _ _, None |}.

(** The phrases stand for their translations. *)
Definition localize : Localize.API :=
  {| Localize.translateLocal := λ phrase, phrase;
     Localize.translate := λ _ phrase _, phrase |}.

Definition taskUtils : TaskUtils.API :=
  {| TaskUtils.getTaskReportActionMessage := λ _, {| Message.text := ""; Message.html := None |} |}.

Definition policyUtils : PolicyUtils.API :=
  {| PolicyUtils.getCleanedTagName := λ tag, tag |}.

Definition localePhoneNumber : LocalePhoneNumber.API :=
  {| LocalePhoneNumber.formatPhoneNumber := λ number, number |}.

Definition str : Str.API :=
  {| Str.removeSMSDomain := λ text, text;
     Str.isSMSLogin := λ _, false |}.

(** The report with identifier "4" has a draft comment. *)
Definition draftCommentUtils : DraftCommentUtils :=
  {| hasValidDraftComment := λ reportID, (reportID =? "4")%string |}.

(** On the names of the examples (lower-case ASCII letters) the order
    of the code units is the order of every locale. *)
Definition locale : LocaleCompare :=
  {| localeCompare := compareCodeUnits |}.

(** A chat report of the store. *)
Definition report (reportID : option string) (name : string) (created : option string)
    (isPinned : option bool) (notificationPreference : option string)
    (statusNum : option Z) (lastActorAccountID : option Z) (type : option string)
    (more : Obj JSValue) : Report.t :=
  {| Report.reportID := reportID;
     Report.parentReportID := None;
     Report.parentReportActionID := None;
     Report.notificationPreference := notificationPreference;
     Report.isPinned := isPinned;
     Report.lastVisibleActionCreated := created;
     Report.hasErrorsOtherThanFailedReceipt := None;
     Report.lastActorAccountID := lastActorAccountID;
     Report.pendingFields_addWorkspaceRoom := None;
     Report.pendingFields_createChat := None;
     Report.ownerAccountID := None;
     Report.managerID := None;
     Report.policyID := None;
     Report.stateNum := statusNum;
     Report.statusNum := statusNum;
     Report.iouReportID := None;
     Report.hasOutstandingChildRequest := None;
     Report.hasOutstandingChildTask := None;
     Report.hasParentAccess := None;
     Report.isWaitingOnBankAccount := None;
     Report.isDeletedParentAction := None;
     Report.chatType := None;
     Report.lastActionType := None;
     Report.lastMessageHtml := None;
     Report.type := type;
     Report.rest := ("reportName", JSString name) :: more |}.

Definition chat (reportID name created : string) : Report.t :=
  report (Some reportID) name (Some created) None (Some "always") (Some 0) (Some 7)
    (Some "chat") [].

Definition archivedChat (reportID name created : string) : Report.t :=
  report (Some reportID) name (Some created) None (Some "always") (Some 2) (Some 7)
    (Some "chat") [].

Definition person (accountID : Z) (name : string) : PersonalDetails.t :=
  {| PersonalDetails.accountID := Some accountID;
     PersonalDetails.login := Some (name +:+ "@example.com");
     PersonalDetails.phoneNumber := None;
     PersonalDetails.displayName := Some name;
     PersonalDetails.avatar := None;
     PersonalDetails.status := None;
     PersonalDetails.rest := [] |}.

(** Three chats and two archived chats, all with a timestamp. *)
Definition history : Obj (option Report.t) :=
  [("report_1", Some (chat "1" "a" "2023-01-01 10:00:00.000"));
   ("report_2", Some (chat "2" "c" "2023-01-02 10:00:00.000"));
   ("report_3", Some (chat "3" "b" "2023-01-02 10:00:00.000"));
   ("report_5", Some (archivedChat "5" "b" "2023-01-01 10:00:00.000"));
   ("report_6", Some (archivedChat "6" "a" "2023-01-01 10:00:00.000"))].


(** An error of a report action, and the error that a failed receipt
    scan leaves: the message and its translation flag. *)
Definition genericError : JSValue :=
  JSArray [JSString "Unexpected error, please try again later";
           JSObject [("isTranslated", JSBool true)]].

Definition smartscanError : JSValue :=
  JSArray [JSString "iou.error.genericSmartscanFailureMessage";
           JSObject [("isTranslated", JSBool true)]].

(** The [errors] of a report, by the time of the error. *)
Definition withErrors (errors : Obj JSValue) : Obj JSValue :=
  [("errors", JSObject errors)].


(** A pinned chat whose notifications are hidden, with and without the
    [type] that the option list asks for. *)
Definition pinnedHidden : Report.t :=
  report (Some "7") "p" (Some "2023-01-01 10:00:00.000") (Some true) (Some "hidden") (Some 0)
    (Some 7) (Some "chat") [].


Definition hiddenChat : Report.t :=
  report (Some "8") "h" (Some "2023-01-01 10:00:00.000") None (Some "hidden") (Some 0)
    (Some 7) (Some "chat") [].

Definition sidebar : Obj (option Report.t) :=
  [("report_7", Some pinnedHidden); ("report_8", Some hiddenChat);
   ("report_3", Some (chat "3" "d" "2023-01-02 10:00:00.000"))].

(** An expense chat whose only error is the failed receipt scan. *)
Definition failedScan : Report.t :=
  report (Some "9") "s" (Some "2023-01-01 10:00:00.000") None (Some "always") (Some 0)
    (Some 7) (Some "chat") (withErrors [("1690000000000002", smartscanError)]).

(** A chat that is unread, with twelve participants, and the same chat
    without a last actor. *)
Definition crowd : list Z := [1; 2; 3; 4; 5; 6; 7; 8; 9; 10; 11; 12].

Definition groupChat (lastActorAccountID : option Z) : Report.t :=
  report (Some "10") "g" (Some "2023-01-01 10:00:00.000") None (Some "always") (Some 0)
    lastActorAccountID (Some "chat")
    [("unread", JSBool true); ("participants", JSArray (JSNumber <$> crowd))].

Definition people : gmap Z PersonalDetails.t :=
  list_to_map ((λ accountID, (accountID, person accountID ("user" +:+ pretty accountID)))
               <$> crowd).

(** The groups of the sidebar before the sort. *)
Definition groupsOf (store : Obj (option Report.t)) : Buckets.t :=
  @groupReports reportUtils reportActionsUtils draftCommentUtils
    (@reportsToDisplay names reportUtils optionsListUtils localize
       None (Some store) None None None None None None None).

Definition orderedReportIDs (priorityMode : option string) (store : Obj (option Report.t)) :
    list string :=
  @getOrderedReportIDs names reportUtils optionsListUtils reportActionsUtils localize
    draftCommentUtils locale None (Some store) None None priorityMode None None None None.

Definition optionRow (report : Report.t) : Completion (option OptionData.t) :=
  @getOptionData names reportUtils optionsListUtils reportActionsUtils localize taskUtils
    policyUtils localePhoneNumber str ∅ (Some report) None (Some people) "en" None None false.

(** A property of the record that was returned, if one was. *)
Definition returned {A} (property : OptionData.t → option A)
    (completion : Completion (option OptionData.t)) : option A :=
  match completion with
  | Normal (Some result) => property result
  | _ => None
  end.
End Sample.

(** ** [PressableWithoutFeedback]
    (src/components/Pressable/PressableWithoutFeedback.tsx) *)

(** [object[key]] on an object given by its properties. *)
Definition Obj_get {V} (key : string) (object : Obj V) : option V :=
  snd <$> List.find (λ property, (fst property =? key)%string) object.

Module Element.
(** What [<Component {...props} ref={ref} />] creates. *)
Record t := {
  component : string;
  props : Obj JSValue;
  ref : JSValue;
}.
End Element.

(** Line 7: the properties that the parameter list takes out of the
    props. *)
Definition feedbackProps : list string :=
  ["pressStyle"; "hoverStyle"; "focusStyle"; "disabledStyle"; "screenReaderActiveStyle";
   "shouldUseHapticsOnPress"; "shouldUseHapticsOnLongPress"].

(** Line 7: [...rest]. *)
Definition restProps (props : Obj JSValue) : Obj JSValue :=
  List.filter (λ property, negb (bool_decide (fst property ∈ feedbackProps))) props.

(** Lines 6-17. *)
Definition PressableWithoutFeedback (props : Obj JSValue) (ref : JSValue) : Element.t :=
  let rest := restProps props in
  {| Element.component := "GenericPressable"; Element.props := rest; Element.ref := ref |}.

(** ** More vocabulary *)

Section more_vocabulary.
Context `{!CONST.Names, !ReportUtils.API, !OptionsListUtils.API, !ReportActionsUtils.API,
          !Localize.API, !TaskUtils.API, !PolicyUtils.API, !LocalePhoneNumber.API, !Str.API}.

(** Line 90: the actions of a report in the collection of all actions. *)
Definition reportActionsOf (allReportActions : option (gmap string ReportActions))
    (report : Report.t) : ReportActions :=
  default [] (allReportActions ≫= λ all,
    all !! (CONST.COLLECTION_REPORT_ACTIONS +:+ template (Report.reportID report))).

(** Line 39: the test of the actions that may stand for a report. *)
Definition isDisplayableAction (reportAction : ReportAction.t) : bool :=
  ReportActionsUtils.shouldReportActionBeVisibleAsLastAction reportAction
  && negb (strict_eq (ReportAction.actionName reportAction) (Some CONST.ACTIONS_TYPE_CREATED)).

(** Line 404: a participant in the text of the chat history, with the
    pronouns when there are some. *)
Definition formattedText (tooltip : DisplayNameWithTooltip.t) : string :=
  template
    (if negb (truthy_opt_string (DisplayNameWithTooltip.pronouns tooltip))
     then DisplayNameWithTooltip.displayName tooltip
     else Some (template (DisplayNameWithTooltip.displayName tooltip) +:+ " ("
                +:+ template (DisplayNameWithTooltip.pronouns tooltip) +:+ ")")).

(** An enumeration: a comma after every name but the last two, the
    conjunction after the one before the last, a full stop after the
    last. *)
Fixpoint enumeration (conjunction : string) (names : list string) : list string :=
  match names with
  | [] => []
  | [name] => [name +:+ "."]
  | name :: (_ :: more) as rest =>
      match more with
      | [] => (name +:+ " " +:+ conjunction) :: enumeration conjunction rest
      | _ => (name +:+ ",") :: enumeration conjunction rest
      end
  end.
End more_vocabulary.

Section subscription.
Context `{!CONST.Names, !CollectionUtils.API, !ReportActionsUtils.API}.

(** Lines 25-44: [visibleReportActionItems] is [{}] when the file is
    loaded, and changes with each call of the callback. *)
Definition afterCallbacks (calls : list (option ReportActions * option string)) :
    gmap string ReportAction.t :=
  fold_left (λ visibleReportActionItems call,
               onReportActions visibleReportActionItems (fst call) (snd call))
    calls ∅.
End subscription.

(** ** More stores for the implementation of [Sample] *)

Module Cases.
(** The key of a collection item is the name of the collection, an
    underscore and the identifier. *)
Fixpoint afterUnderscore (key : string) : string :=
  match key with
  | String c rest => if Ascii.eqb c "_" then rest else afterUnderscore rest
  | EmptyString => EmptyString
  end.

Definition collectionUtils : CollectionUtils.API :=
  {| CollectionUtils.extractCollectionItemID := afterUnderscore |}.

Definition action (actionName : string) (author : string) : ReportAction.t :=
  {| ReportAction.actionName := Some actionName;
     ReportAction.pendingAction := None;
     ReportAction.person_0_text := Some author;
     ReportAction.rest := [] |}.

(** The actions of report 3: its creation and two comments. *)
Definition actions : ReportActions :=
  [("100", action "CREATED" "ann"); ("101", action "ADDCOMMENT" "ann");
   ("102", action "ADDCOMMENT" "bob")].

(** A report that has only its creation. *)
Definition created : ReportActions := [("100", action "CREATED" "ann")].

(** A room of a workspace, and a join request in an admin room. *)
Definition room : Report.t :=
  {| Report.reportID := Some "20";
     Report.parentReportID := None;
     Report.parentReportActionID := None;
     Report.notificationPreference := Some "always";
     Report.isPinned := None;
     Report.lastVisibleActionCreated := Some "2023-01-03 10:00:00.000";
     Report.hasErrorsOtherThanFailedReceipt := None;
     Report.lastActorAccountID := Some 1;
     Report.pendingFields_addWorkspaceRoom := None;
     Report.pendingFields_createChat := None;
     Report.ownerAccountID := None;
     Report.managerID := None;
     Report.policyID := Some "P1";
     Report.stateNum := Some 0;
     Report.statusNum := Some 0;
     Report.iouReportID := None;
     Report.hasOutstandingChildRequest := None;
     Report.hasOutstandingChildTask := None;
     Report.hasParentAccess := None;
     Report.isWaitingOnBankAccount := None;
     Report.isDeletedParentAction := None;
     Report.chatType := Some "policyRoom";
     Report.lastActionType := None;
     Report.lastMessageHtml := None;
     Report.type := Some "chat";
     Report.rest :=
       [("reportName", JSString "#room"); ("participants", JSArray [JSNumber 1]);
        ("lastMessageText", JSString "hello")] |}.

Definition joinRequest : Report.t :=
  Sample.report (Some "21") "#admins" (Some "2023-01-03 10:00:00.000") None (Some "always")
    (Some 0) None (Some "chat") [("joinRequest", JSBool true)].

(** A chat with one participant whose details are known. *)
Definition direct : Report.t :=
  Sample.report (Some "22") "ann" (Some "2023-01-03 10:00:00.000") None (Some "always")
    (Some 0) (Some 1) (Some "chat") [("participants", JSArray [JSNumber 1])].

(** A chat with hidden notifications, no [type], and an error. *)
Definition hiddenWithError : Report.t :=
  Sample.report (Some "23") "e" None None (Some "hidden") (Some 0) None None
    (Sample.withErrors [("1690000000000003", Sample.genericError)]).

Definition errorStore : Obj (option Report.t) :=
  [("report_23", Some hiddenWithError); ("report_8", Some Sample.hiddenChat)].

(** Two pinned chats, two chats with an error and the chat with the
    draft. *)
Definition attention : Obj (option Report.t) :=
  [("report_31",
    Some (Sample.report (Some "31") "q" (Some "2023-01-05 10:00:00.000") (Some true)
            (Some "always") (Some 0) (Some 7) (Some "chat") []));
   ("report_32",
    Some (Sample.report (Some "32") "p" (Some "2023-01-04 10:00:00.000") (Some true)
            (Some "always") (Some 0) (Some 7) (Some "chat") []));
   ("report_33",
    Some (Sample.report (Some "33") "z" (Some "2023-01-05 10:00:00.000") None
            (Some "always") (Some 0) (Some 7) (Some "chat")
            (Sample.withErrors [("1690000000000004", Sample.genericError)])));
   ("report_34",
    Some (Sample.report (Some "34") "y" (Some "2023-01-04 10:00:00.000") None
            (Some "always") (Some 0) (Some 7) (Some "chat")
            (Sample.withErrors [("1690000000000005", Sample.genericError)])));
   ("report_4", Some (Sample.chat "4" "d" "2023-01-02 10:00:00.000"))].

(** [getOrderedReportIDs] with a focused report and a workspace. *)
Definition orderedReportIDsIn (currentReportId currentPolicyID : option string)
    (store : Obj (option Report.t)) : list string :=
  @getOrderedReportIDs Sample.names Sample.reportUtils Sample.optionsListUtils
    Sample.reportActionsUtils Sample.localize Sample.draftCommentUtils Sample.locale
    currentReportId (Some store) None None None None None currentPolicyID None.

(** [getOptionData] with the state of the file and the personal
    details given. *)
Definition optionRowWith (visibleReportActionItems : gmap string ReportAction.t)
    (personalDetails : gmap Z PersonalDetails.t) (report : Report.t) :
    Completion (option OptionData.t) :=
  @getOptionData Sample.names Sample.reportUtils Sample.optionsListUtils
    Sample.reportActionsUtils Sample.localize Sample.taskUtils Sample.policyUtils
    Sample.localePhoneNumber Sample.str visibleReportActionItems (Some report) None
    (Some personalDetails) "en" None None false.
End Cases.

(** * Properties *)

(** ** [Array.prototype.sort] *)

Section sort_properties.
Context {A : Type} (compareFn : A → A → Z).
Implicit Types (x y : A) (l : list A).

Lemma sort_insert_Permutation x l : sort_insert compareFn x l ≡ₚ x :: l.
Proof.
  induction l as [|y l IH]; simpl; [done|].
  destruct (compareFn x y <=? 0); [done|].
  rewrite IH. apply Permutation_swap.
Qed.

Lemma Array_sort_Permutation l : Array_sort compareFn l ≡ₚ l.
Proof.
  induction l as [|x l IH]; simpl; [done|].
  by rewrite sort_insert_Permutation, IH.
Qed.

Lemma Array_sort_elem_of x l : x ∈ Array_sort compareFn l → x ∈ l.
Proof. by rewrite Array_sort_Permutation. Qed.

(** Inserting keeps a list sorted for every transitive relation that
    the comparator decides between [x] and the elements of the list. *)
Lemma sort_insert_StronglySorted (R : relation A) `{!Transitive R} x l :
  (∀ y, y ∈ l → compareFn x y ≤ 0 → R x y) →
  (∀ y, y ∈ l → 0 < compareFn x y → R y x) →
  StronglySorted R l →
  StronglySorted R (sort_insert compareFn x l).
Proof.
  intros Hle Hgt. induction 1 as [|y l Hsorted IH Hy]; simpl.
  { repeat constructor. }
  destruct (Z.leb_spec (compareFn x y) 0) as [Hxy|Hxy].
  - apply SSorted_cons; [by apply SSorted_cons|].
    assert (R x y) as HR by (apply Hle; [left|done]).
    constructor; [done|].
    eapply Forall_impl; [exact Hy|]. intros z Hz. by etrans.
  - apply SSorted_cons.
    + apply IH; intros z Hz; [apply Hle|apply Hgt]; by right.
    + rewrite sort_insert_Permutation. constructor; [|done].
      apply Hgt; [left|done].
Qed.

Lemma Array_sort_StronglySorted (R : relation A) `{!Transitive R} l :
  (∀ x y, x ∈ l → y ∈ l → compareFn x y ≤ 0 → R x y) →
  (∀ x y, x ∈ l → y ∈ l → 0 < compareFn x y → R y x) →
  StronglySorted R (Array_sort compareFn l).
Proof.
  induction l as [|x l IH]; intros Hle Hgt; simpl; [constructor|].
  apply sort_insert_StronglySorted; [done|..].
  - intros y Hy%Array_sort_elem_of. apply Hle; [left|by right].
  - intros y Hy%Array_sort_elem_of. apply Hgt; [left|by right].
  - apply IH; intros y z Hy Hz; [apply Hle|apply Hgt]; by right.
Qed.


End sort_properties.

Lemma sort_insert_fmap {A B} (f : B → A) (compareFn : A → A → Z) (x : B) (l : list B) :
  sort_insert compareFn (f x) (f <$> l)
  = f <$> sort_insert (λ a b, compareFn (f a) (f b)) x l.
Proof.
  induction l as [|y l IH]; csimpl; [done|].
  destruct (compareFn (f x) (f y) <=? 0); csimpl; [done|]. by rewrite IH.
Qed.

Lemma Array_sort_fmap {A B} (f : B → A) (compareFn : A → A → Z) (l : list B) :
  Array_sort compareFn (f <$> l) = f <$> Array_sort (λ a b, compareFn (f a) (f b)) l.
Proof.
  induction l as [|x l IH]; csimpl; [done|].
  by rewrite IH, sort_insert_fmap.
Qed.

Lemma StronglySorted_weaken {A} (R S : relation A) (l : list A) :
  (∀ x y, x ∈ l → y ∈ l → R x y → S x y) →
  StronglySorted R l → StronglySorted S l.
Proof.
  intros HRS. induction 1 as [|x l Hsorted IH Hx]; constructor.
  - apply IH. intros y z Hy Hz. apply HRS; by right.
  - apply Forall_forall. intros y Hy. apply HRS; [left|by right|].
    by eapply Forall_forall in Hx.
Qed.

(** ** [forEach] with [push] *)

Lemma forEach_push_omap {A B} (callback : A → option B) (l : list A) :
  forEach_push callback l = omap callback l.
Proof.
  unfold forEach_push.
  enough (∀ pushed,
    fold_left (λ pushed x,
      match callback x with Some y => pushed ++ [y] | None => pushed end) l pushed
    = pushed ++ omap callback l) as Hgen by apply Hgen.
  induction l as [|x l IH]; intros pushed; simpl.
  - by rewrite app_nil_r.
  - rewrite IH. destruct (callback x); [|done]. by rewrite <- app_assoc.
Qed.

(** ** [compareStringDates] *)

Lemma ltb_le (a b : string) : String.ltb a b = true → (a ≤ b)%string.
Proof.
  unfold String.ltb, String.le, String.leb. by destruct (String.compare a b).
Qed.

Lemma ltb_neq (a b : string) : String.ltb a b = true → a ≠ b.
Proof.
  unfold String.ltb. intros Hlt ->.
  pose proof (String.compare_antisym b b) as Hrefl.
  by destruct (String.compare b b).
Qed.

Lemma not_ltb_le (a b : string) : String.ltb a b = false → (b ≤ a)%string.
Proof.
  unfold String.ltb, String.le, String.leb. rewrite (String.compare_antisym a b).
  by destruct (String.compare b a).
Qed.

Lemma not_ltb_eq (a b : string) :
  String.ltb a b = false → String.ltb b a = false → a = b.
Proof.
  intros Hab%not_ltb_le Hba%not_ltb_le. by apply (anti_symm String.le).
Qed.

Lemma compareStringDates_le (a b : string) : compareStringDates a b ≤ 0 → (a ≤ b)%string.
Proof.
  unfold compareStringDates.
  destruct (String.ltb a b) eqn:Hab; [intros _; by apply ltb_le|].
  destruct (String.ltb b a) eqn:Hba; [lia|].
  intros _. by rewrite (not_ltb_eq a b).
Qed.


Lemma compareStringDates_0 (a b : string) : compareStringDates a b = 0 ↔ a = b.
Proof.
  unfold compareStringDates. split.
  - destruct (String.ltb a b) eqn:Hab; [lia|].
    destruct (String.ltb b a) eqn:Hba; [lia|]. intros _. by apply not_ltb_eq.
  - intros ->. destruct (String.ltb b b) eqn:Hbb; [|done].
    by apply ltb_neq in Hbb.
Qed.


(** ** Lists *)

Lemma List_filter_sublist {A} (p : A → bool) (l : list A) : List.filter p l `sublist_of` l.
Proof.
  induction l as [|x l IH]; simpl; [done|].
  destruct (p x); by constructor.
Qed.

Lemma List_filter_elem_of {A} (p : A → bool) (l : list A) (x : A) :
  x ∈ List.filter p l ↔ x ∈ l ∧ p x = true.
Proof. rewrite !list_elem_of_In. apply filter_In. Qed.

Lemma omap_fmap_sublist {A B C} (f : A → option B) (g : B → C) (h : A → C) (l : list A) :
  (∀ x y, f x = Some y → g y = h x) →
  (g <$> omap f l) `sublist_of` (h <$> l).
Proof.
  intros Hfg. induction l as [|x l IH]; csimpl; [done|].
  destruct (f x) as [y|] eqn:Hx; csimpl.
  - rewrite (Hfg x y Hx). by constructor.
  - by constructor.
Qed.

(** ** The groups of [getOrderedReportIDs] *)

Section grouping.
Context `{!CONST.Names, !ReportUtils.API, !OptionsListUtils.API,
          !ReportActionsUtils.API, !Localize.API, !DraftCommentUtils, !LocaleCompare}.
Implicit Types (report : Report.t) (reports : list Report.t) (groups : Buckets.t).

Ltac case_bucket report :=
  unfold pushReport, inBucket, bucketOf;
  destruct (isPinnedOrRequiresAttention report);
  [|destruct (hasValidDraftComment (default "-1" (Report.reportID report)));
    [|destruct (ReportUtils.isArchivedRoom report);
      [|destruct (truthy_opt_bool (Report.hasErrorsOtherThanFailedReceipt report))]]].

(** The second [forEach] appends to each array the reports of its
    bucket, in the order of [reportsToDisplay]. *)
Lemma fold_pushReport reports groups :
  fold_left pushReport reports groups =
  {| Buckets.pinnedAndGBRReports :=
       Buckets.pinnedAndGBRReports groups
       ++ (miniReport <$> List.filter (inBucket PinnedGBR) reports);
     Buckets.draftReports :=
       Buckets.draftReports groups ++ (miniReport <$> List.filter (inBucket DraftBucket) reports);
     Buckets.nonArchivedReports :=
       Buckets.nonArchivedReports groups
       ++ (miniReport <$> List.filter (inBucket DefaultBucket) reports);
     Buckets.archivedReports :=
       Buckets.archivedReports groups
       ++ (miniReport <$> List.filter (inBucket ArchivedBucket) reports);
     Buckets.errorReports :=
       Buckets.errorReports groups ++ (miniReport <$> List.filter (inBucket ErrorBucket) reports) |}.
Proof.
  revert groups. induction reports as [|report reports IH]; intros [p d n a e]; simpl.
  { by rewrite !app_nil_r. }
  rewrite IH. clear IH. case_bucket report; simpl; by rewrite <- ?app_assoc.
Qed.

Lemma groupReports_buckets reports :
  groupReports reports =
  {| Buckets.pinnedAndGBRReports := miniReport <$> List.filter (inBucket PinnedGBR) reports;
     Buckets.draftReports := miniReport <$> List.filter (inBucket DraftBucket) reports;
     Buckets.nonArchivedReports := miniReport <$> List.filter (inBucket DefaultBucket) reports;
     Buckets.archivedReports := miniReport <$> List.filter (inBucket ArchivedBucket) reports;
     Buckets.errorReports := miniReport <$> List.filter (inBucket ErrorBucket) reports |}.
Proof. unfold groupReports. by rewrite fold_pushReport. Qed.

(** The five buckets, in the order of line 198, hold every report once. *)
Lemma buckets_Permutation reports :
  List.filter (inBucket PinnedGBR) reports ++ List.filter (inBucket ErrorBucket) reports
  ++ List.filter (inBucket DraftBucket) reports ++ List.filter (inBucket DefaultBucket) reports
  ++ List.filter (inBucket ArchivedBucket) reports ≡ₚ reports.
Proof.
  induction reports as [|report reports IH]; simpl; [done|].
  etrans; [|apply Permutation_skip, IH]. clear IH.
  case_bucket report; simpl; solve_Permutation.
Qed.

Lemma inBucket_bucketOf bucket report : inBucket bucket report = true ↔ bucketOf report = bucket.
Proof. unfold inBucket. apply bool_decide_eq_true. Qed.
End grouping.

(** ** The output of [getOrderedReportIDs] *)

Section ordering.
Context `{!CONST.Names, !ReportUtils.API, !OptionsListUtils.API,
          !ReportActionsUtils.API, !Localize.API, !DraftCommentUtils, !LocaleCompare}.
Variables
  (currentReportId : option string)
  (allReports : option (Obj (option Report.t)))
  (betas : option (list Beta))
  (policies : option (Obj (option Policy)))
  (priorityMode : option string)
  (allReportActions : option (gmap string ReportActions))
  (transactionViolations : option (Obj (option (list JSValue))))
  (currentPolicyID : option string)
  (policyMemberAccountIDs : option (list Z)).

#[local] Abbreviation shown :=
  (reportsToDisplay currentReportId allReports betas policies priorityMode allReportActions
     transactionViolations currentPolicyID policyMemberAccountIDs).
#[local] Abbreviation output :=
  (getOrderedReportIDs currentReportId allReports betas policies priorityMode allReportActions
     transactionViolations currentPolicyID policyMemberAccountIDs).
#[local] Abbreviation displayed :=
  (displayedReport currentReportId betas policies priorityMode allReportActions
     transactionViolations).
#[local] Abbreviation pushed := (pushedReport allReportActions betas transactionViolations).

Lemma reportIdentifier_pushedReport report :
  reportIdentifier (pushed report) = reportIdentifier report.
Proof. unfold pushedReport. by destruct (hasErrorsOtherThanFailedReceipt _ _ _ _). Qed.

(** What the first [forEach] pushes for an entry of the collection. *)
Lemma displayedReport_Some entry report' :
  displayed entry = Some report' →
  ∃ report, entry = Some report ∧ report' = pushed report
    ∧ (isHidden report = true →
       shouldOverrideHidden currentReportId betas allReportActions transactionViolations report
       = true).
Proof.
  destruct entry as [report|]; [|done]. unfold displayedReport, pushedReport, shouldOverrideHidden.
  intros Hpushed. exists report. split; [done|].
  destruct (ReportUtils.isOneTransactionThread _ _); [done|].
  destruct (hasErrorsOtherThanFailedReceipt _ _ _ _); simpl in *.
  { split; [congruence|done]. }
  destruct (isHidden report); simpl in *.
  - destruct (isFocused _ _ || _ || _); simpl in *; [|done].
    destruct (ReportUtils.shouldReportBeInOptionList _ _ _ _ _ _ _ _); [|done].
    split; [congruence|done].
  - destruct (ReportUtils.shouldReportBeInOptionList _ _ _ _ _ _ _ _); [|done].
    split; [congruence|done].
Qed.

Lemma reportsToDisplay_sublist :
  shown `sublist_of`
    omap displayed (allReportsDictValues allReports).
Proof.
  unfold reportsToDisplay. rewrite forEach_push_omap.
  destruct (_ || _); [apply List_filter_sublist|done].
Qed.


Lemma identifiers_sublist :
  (reportIdentifier <$> shown) `sublist_of` (reportIdentifier <$> inputReports allReports).
Proof.
  etrans; [apply fmap_sublist, reportsToDisplay_sublist|].
  unfold inputReports.
  induction (allReportsDictValues allReports) as [|entry entries IH]; csimpl; [done|].
  destruct (displayed entry) as [report'|] eqn:Hdisplayed.
  - apply displayedReport_Some in Hdisplayed as (report & -> & -> & _). csimpl.
    rewrite reportIdentifier_pushedReport. by constructor.
  - destruct entry; csimpl; [by constructor|done].
Qed.

(** The output is made of the five sorted buckets, in the order of line 198. *)
Lemma getOrderedReportIDs_buckets :
  output =
  reportIdentifier <$>
    (Array_sort (onReports compareDisplayNames) (List.filter (inBucket PinnedGBR) shown)
     ++ Array_sort (onReports compareDisplayNames) (List.filter (inBucket ErrorBucket) shown)
     ++ Array_sort (onReports compareDisplayNames) (List.filter (inBucket DraftBucket) shown)
     ++ Array_sort (onReports (compareOthers priorityMode))
          (List.filter (inBucket DefaultBucket) shown)
     ++ Array_sort (onReports (compareArchived priorityMode))
          (List.filter (inBucket ArchivedBucket) shown)).
Proof.
  unfold getOrderedReportIDs, compareOthers, compareArchived.
  rewrite groupReports_buckets. unfold sortGroups, flatten.
  destruct (isInDefaultMode priorityMode); simpl;
    rewrite !Array_sort_fmap, <- !fmap_app, <- list_fmap_compose; done.
Qed.

Lemma output_Permutation : output ≡ₚ reportIdentifier <$> shown.
Proof.
  rewrite getOrderedReportIDs_buckets. apply fmap_Permutation.
  rewrite !Array_sort_Permutation. apply buckets_Permutation.
Qed.
End ordering.

Section ordering_theorems.
Context `{!CONST.Names, !ReportUtils.API, !OptionsListUtils.API,
          !ReportActionsUtils.API, !Localize.API, !DraftCommentUtils, !LocaleCompare}.

Lemma bucketOrder_app (n : nat) (l1 l2 : list Report.t) :
  (∀ report, report ∈ l1 → rank (bucketOf report) ≤ n)%nat →
  (∀ report, report ∈ l2 → n ≤ rank (bucketOf report))%nat →
  StronglySorted bucketOrder l1 → StronglySorted bucketOrder l2 →
  StronglySorted bucketOrder (l1 ++ l2).
Proof.
  intros Hl1 Hl2 ??. apply StronglySorted_app. split_and!; [|done..].
  intros a b Ha%Hl1 Hb%Hl2. unfold bucketOrder. lia.
Qed.

Lemma bucketOrder_same (bucket : Bucket) (l : list Report.t) :
  (∀ report, report ∈ l → bucketOf report = bucket) →
  StronglySorted bucketOrder l.
Proof.
  intros Hl. induction l as [|a l IH]; constructor.
  - apply IH. intros b Hb. apply Hl. by right.
  - apply Forall_forall. intros b Hb. unfold bucketOrder.
    rewrite (Hl a), (Hl b); [done|by right|by left].
Qed.

Lemma sorted_bucket (bucket : Bucket) (compareFn : Report.t → Report.t → Z)
    (reports : list Report.t) (report : Report.t) :
  report ∈ Array_sort compareFn (List.filter (inBucket bucket) reports) →
  report ∈ reports ∧ bucketOf report = bucket.
Proof.
  intros Hin%Array_sort_elem_of%List_filter_elem_of.
  by rewrite inBucket_bucketOf in Hin.
Qed.

(** C1: the identifiers that [getOrderedReportIDs] returns are those of
    the pinned-or-attention-required reports, then of the error bucket,
    then of the drafts, then of the default bucket, then of the
    archived reports: the five buckets of the displayed reports, each
    in some order, whatever the timestamps; a report never stands
    before a report of an earlier bucket. *)
Theorem getOrderedReportIDs_bucket_order
    (currentReportId : option string) (allReports : option (Obj (option Report.t)))
    (betas : option (list Beta)) (policies : option (Obj (option Policy)))
    (priorityMode : option string) (allReportActions : option (gmap string ReportActions))
    (transactionViolations : option (Obj (option (list JSValue))))
    (currentPolicyID : option string) (policyMemberAccountIDs : option (list Z)) :
  let shown :=
    reportsToDisplay currentReportId allReports betas policies priorityMode allReportActions
      transactionViolations currentPolicyID policyMemberAccountIDs in
  ∃ pinned errors drafts nonArchived archived : list Report.t,
    pinned ≡ₚ List.filter (inBucket PinnedGBR) shown
    ∧ errors ≡ₚ List.filter (inBucket ErrorBucket) shown
    ∧ drafts ≡ₚ List.filter (inBucket DraftBucket) shown
    ∧ nonArchived ≡ₚ List.filter (inBucket DefaultBucket) shown
    ∧ archived ≡ₚ List.filter (inBucket ArchivedBucket) shown
    ∧ getOrderedReportIDs currentReportId allReports betas policies priorityMode
        allReportActions transactionViolations currentPolicyID policyMemberAccountIDs
      = reportIdentifier <$> (pinned ++ errors ++ drafts ++ nonArchived ++ archived)
    ∧ StronglySorted bucketOrder (pinned ++ errors ++ drafts ++ nonArchived ++ archived).
Proof.
  intros shown. eexists _, _, _, _, _.
  split_and!; [..|apply getOrderedReportIDs_buckets|]; try apply Array_sort_Permutation.
  fold shown.
  apply (bucketOrder_app 0); [| |by eapply bucketOrder_same, sorted_bucket|].
  { by intros report [_ ->]%sorted_bucket. }
  { intros report. rewrite !elem_of_app. lia. }
  apply (bucketOrder_app 1); [| |by eapply bucketOrder_same, sorted_bucket|].
  { by intros report [_ ->]%sorted_bucket. }
  { intros report. rewrite !elem_of_app.
    intros [[_ ->]%sorted_bucket|[[_ ->]%sorted_bucket|[_ ->]%sorted_bucket]]; simpl; lia. }
  apply (bucketOrder_app 2); [| |by eapply bucketOrder_same, sorted_bucket|].
  { by intros report [_ ->]%sorted_bucket. }
  { intros report. rewrite !elem_of_app.
    intros [[_ ->]%sorted_bucket|[_ ->]%sorted_bucket]; simpl; lia. }
  apply (bucketOrder_app 3); [| |by eapply bucketOrder_same, sorted_bucket..].
  { by intros report [_ ->]%sorted_bucket. }
  { by intros report [_ ->]%sorted_bucket; simpl; lia. }
Qed.

(** C2: the second [forEach] puts every report that it is given (the
    reports that survive the filtering) in exactly one of the five
    arrays, the one that the priority order of the tests names:
    pinned or requiring attention, else draft, else archived, else
    error flag, else default. *)
Theorem groupReports_partition (reports : list Report.t) :
  let groups := groupReports reports in
  Buckets.pinnedAndGBRReports groups = miniReport <$> List.filter (inBucket PinnedGBR) reports
  ∧ Buckets.draftReports groups = miniReport <$> List.filter (inBucket DraftBucket) reports
  ∧ Buckets.archivedReports groups = miniReport <$> List.filter (inBucket ArchivedBucket) reports
  ∧ Buckets.errorReports groups = miniReport <$> List.filter (inBucket ErrorBucket) reports
  ∧ Buckets.nonArchivedReports groups = miniReport <$> List.filter (inBucket DefaultBucket) reports
  ∧ flatten groups ≡ₚ miniReport <$> reports.
Proof.
  intros groups. subst groups. rewrite groupReports_buckets. simpl.
  split_and!; try done.
  unfold flatten. simpl. rewrite <- !fmap_app.
  apply fmap_Permutation, buckets_Permutation.
Qed.

End ordering_theorems.

(** ** The order inside the default and the archived bucket *)

Lemma le_neq_ltb (a b : string) : (a ≤ b)%string → a ≠ b → String.ltb a b = true.
Proof.
  unfold String.ltb, String.le, String.leb. intros Hle Hne.
  destruct (String.compare a b) eqn:Hcompare; [|done..].
  by apply String.compare_eq_iff in Hcompare.
Qed.

Lemma ltb_trans (a b c : string) :
  String.ltb a b = true → String.ltb b c = true → String.ltb a c = true.
Proof.
  intros Hab Hbc. apply le_neq_ltb.
  - trans b; by apply ltb_le.
  - intros ->. apply (ltb_neq b c); [done|].
    apply (anti_symm String.le); by apply ltb_le.
Qed.

Lemma ltb_irrefl (a : string) : String.ltb a a = false.
Proof.
  destruct (String.ltb a a) eqn:Hlt; [|done]. by apply ltb_neq in Hlt.
Qed.


Section bucket_order.
Context `{!LocaleCompare}.
Implicit Types (a b : MiniReport.t) (l : list MiniReport.t).




Lemma compareDisplayNames_names a b :
  hasDisplayName a → hasDisplayName b →
  compareDisplayNames a b = localeCompare (MiniReport.displayName a) (MiniReport.displayName b).
Proof. unfold hasDisplayName, compareDisplayNames. by intros -> ->. Qed.






Lemma compareDisplayNames_sorted l :
  Forall hasDisplayName l →
  ConsistentOn localeCompare (MiniReport.displayName <$> l) →
  StronglySorted byDisplayName (Array_sort compareDisplayNames l).
Proof.
  rewrite Forall_forall. intros Hnames [Htotal Htrans].
  apply (StronglySorted_weaken (λ a b, (a ∈ l ∧ b ∈ l) ∧ byDisplayName a b)).
  { by intros a b _ _ [_ ?]. }
  apply Array_sort_StronglySorted.
  - intros a b c [[Ha Hb] Hab] [[_ Hc] Hbc]. split; [done|]. unfold byDisplayName in *.
    eapply (Htrans _ (MiniReport.displayName b)); try done; by apply list_elem_of_fmap_2.
  - intros a b Ha Hb. rewrite compareDisplayNames_names by auto. done.
  - intros a b Ha Hb. rewrite compareDisplayNames_names by auto. intros Hgt.
    split; [done|]. apply Htotal; [by apply list_elem_of_fmap_2..|done].
Qed.

(** The comparator on display names does not read the timestamps. *)
Lemma compareDisplayNames_retime (retime : MiniReport.t → option string) l :
  Array_sort compareDisplayNames (withTimestamp retime <$> l)
  = withTimestamp retime <$> Array_sort compareDisplayNames l.
Proof. by rewrite Array_sort_fmap. Qed.

Context `{!CONST.Names}.


End bucket_order.

(** ** [getOptionData] *)

Section option_row.
Context `{!CONST.Names, !ReportUtils.API, !OptionsListUtils.API, !ReportActionsUtils.API,
          !Localize.API, !TaskUtils.API, !PolicyUtils.API, !LocalePhoneNumber.API, !Str.API}.
Variables
  (visibleReportActionItems : gmap string ReportAction.t)
  (reportActions : option ReportActions)
  (preferredLocale : string)
  (policy : option Policy)
  (parentReportAction : option ReportAction.t)
  (hasViolations : bool).

(** Line 369 is reached only with a last action: a room name comes
    from the original message, which is read only when the last action
    has a name. *)
Lemma roomChangeLogText_Normal (report : Report.t) (personalDetails : gmap Z PersonalDetails.t) :
  ∃ text,
    roomChangeLogText visibleReportActionItems report personalDetails preferredLocale
    = Normal text.
Proof.
  unfold roomChangeLogText.
  destruct (lastAction visibleReportActionItems report) as [action|]; simpl.
  - destruct (truthy_string _); simpl; destruct (strict_eq _ _); eauto.
  - destruct (strict_eq _ _); eauto.
Qed.

Lemma alternateText_Normal (report : Report.t) (personalDetails : gmap Z PersonalDetails.t) :
  ∃ text,
    alternateText visibleReportActionItems report personalDetails preferredLocale policy
    = Normal text.
Proof.
  unfold alternateText.
  destruct (_ && negb _); [|eauto].
  destruct (ReportActionsUtils.isRenamedAction _); [eauto|].
  destruct (ReportActionsUtils.isTaskAction _); [eauto|].
  destruct (ReportActionsUtils.isRoomChangeLogAction _).
  { destruct (roomChangeLogText_Normal report personalDetails) as [text ->]. simpl. eauto. }
  destruct (strict_eq _ _); [eauto|].
  destruct (_ && _ && _); [eauto|].
  destruct (strict_eq _ _); [eauto|].
  destruct (negb _); eauto.
Qed.

(** With a report and the personal details the function returns the
    record that lines 230-457 build. *)
Lemma getOptionData_result (report : Report.t) (personalDetails : gmap Z PersonalDetails.t) :
  ∃ text,
    getOptionData visibleReportActionItems (Some report) reportActions (Some personalDetails)
      preferredLocale policy parentReportAction hasViolations
    = Normal (Some
        (completeResult report personalDetails policy
           (resultAtLine428 report reportActions parentReportAction hasViolations text))).
Proof.
  destruct (alternateText_Normal report personalDetails) as [text Htext].
  exists text. unfold getOptionData, optionData. by rewrite Htext.
Qed.

(** C6: [getOptionData] returns a record when the report and the
    personal details are both present, and [undefined] when one of
    them is absent; it raises in neither case. *)
Theorem getOptionData_defined (report : option Report.t)
    (personalDetails : option (gmap Z PersonalDetails.t)) :
  match report, personalDetails with
  | Some _, Some _ =>
      ∃ result,
        getOptionData visibleReportActionItems report reportActions personalDetails
          preferredLocale policy parentReportAction hasViolations
        = Normal (Some result)
  | _, _ =>
      getOptionData visibleReportActionItems report reportActions personalDetails
        preferredLocale policy parentReportAction hasViolations
      = Normal None
  end.
Proof.
  destruct report as [report|], personalDetails as [personalDetails|]; try done.
  destruct (getOptionData_result report personalDetails) as [text ->]. eauto.
Qed.

(** C7 (amended): in the record that [getOptionData] returns, the
    brick-road indicator of a join request in an admin room is "info";
    of any other report it is "error" when the report has at least one
    error of any kind (the receipt-scan failure included) or
    [hasViolations] is set, and empty otherwise. *)
Theorem brickRoadIndicator_errors (report : Report.t)
    (personalDetails : gmap Z PersonalDetails.t) :
  ∃ result,
    getOptionData visibleReportActionItems (Some report) reportActions (Some personalDetails)
      preferredLocale policy parentReportAction hasViolations
    = Normal (Some result)
    ∧ if ReportUtils.isJoinRequestInAdminRoom report
      then OptionData.brickRoadIndicator result = Some CONST.BRICK_ROAD_INDICATOR_STATUS_INFO
      else
        (OptionData.brickRoadIndicator result = Some CONST.BRICK_ROAD_INDICATOR_STATUS_ERROR
         ↔ default [] (OptionsListUtils.getAllReportErrors report reportActions) ≠ []
           ∨ hasViolations = true)
        ∧ (OptionData.brickRoadIndicator result = Some CONST.BRICK_ROAD_INDICATOR_STATUS_ERROR
           ∨ OptionData.brickRoadIndicator result = Some "").
Proof.
  destruct (getOptionData_result report personalDetails) as [text ->].
  eexists. split; [done|]. simpl.
  destruct (ReportUtils.isJoinRequestInAdminRoom report); [done|].
  unfold hasErrors, allReportErrors, Object_keys.
  destruct (default [] (OptionsListUtils.getAllReportErrors report reportActions)) as [|error errors];
    simpl.
  - destruct hasViolations; simpl; split; try (by left); try (by right).
    + split; [by right|done].
    + split; [done|]. by intros [?|?].
  - split; [|by left]. split; [by left|done].
Qed.

(** C9: the tooltips of the record are those of the first ten entries,
    at most, of the list of the participants' personal details; they
    are at most ten, the helper giving at most one tooltip for a
    personal detail. *)
Theorem displayNamesWithTooltips_first_ten (report : Report.t)
    (personalDetails : gmap Z PersonalDetails.t) (result : OptionData.t) :
  tooltipPerParticipant →
  getOptionData visibleReportActionItems (Some report) reportActions (Some personalDetails)
    preferredLocale policy parentReportAction hasViolations
  = Normal (Some result) →
  ∃ tooltips,
    OptionData.displayNamesWithTooltips result = Some tooltips
    ∧ tooltips
      = ReportUtils.getDisplayNamesWithTooltips
          (take 10 (participantPersonalDetailList report personalDetails))
          (hasMultipleParticipants report personalDetails) None (ReportUtils.isSelfDM report)
    ∧ (length (take 10 (participantPersonalDetailList report personalDetails)) ≤ 10)%nat
    ∧ (length tooltips ≤ 10)%nat.
Proof.
  intros Htooltips.
  destruct (getOptionData_result report personalDetails) as [text ->].
  intros [= <-]. eexists. split_and!; [done..| |].
  - rewrite length_take. lia.
  - unfold displayNamesWithTooltips. etrans; [apply Htooltips|].
    rewrite length_take. lia.
Qed.

(** C10: for a report that is no join request in an admin room,
    [isUnread] of the record is the unread predicate of the report
    together with a truthy [lastActorAccountID]: it is true only with
    such an account, and false for a report without one. *)
Theorem isUnread_needs_last_actor (report : Report.t)
    (personalDetails : gmap Z PersonalDetails.t) (result : OptionData.t) :
  ReportUtils.isJoinRequestInAdminRoom report = false →
  getOptionData visibleReportActionItems (Some report) reportActions (Some personalDetails)
    preferredLocale policy parentReportAction hasViolations
  = Normal (Some result) →
  OptionData.isUnread result
  = Some (ReportUtils.isUnread report && truthy_opt_number (Report.lastActorAccountID report))
  ∧ (OptionData.isUnread result = Some true →
     truthy_opt_number (Report.lastActorAccountID report) = true)
  ∧ (Report.lastActorAccountID report = None → OptionData.isUnread result = Some false).
Proof.
  intros Hjoin.
  destruct (getOptionData_result report personalDetails) as [text ->].
  intros [= <-]. simpl. rewrite Hjoin. split_and!.
  - done.
  - intros [= [_ ?]%andb_true_iff]. done.
  - intros ->. simpl. by rewrite andb_false_r.
Qed.
End option_row.

(** ** The functions on the stores of [Sample] *)

Lemma compareCodeUnits_le (a b : string) :
  Sample.compareCodeUnits a b ≤ 0 ↔ (a ≤ b)%string.
Proof.
  unfold Sample.compareCodeUnits, String.le, String.leb.
  destruct (String.compare a b); simpl; split; (done || lia).
Qed.

Lemma compareCodeUnits_consistent (names : list string) :
  ConsistentOn Sample.compareCodeUnits names.
Proof.
  split.
  - intros a b _ _ Hgt. apply compareCodeUnits_le.
    destruct (total String.le a b) as [Hle|Hle]; [|done].
    apply compareCodeUnits_le in Hle. lia.
  - intros a b c _ _ _. rewrite !compareCodeUnits_le. intros. by trans b.
Qed.

Section examples.
#[local] Existing Instances Sample.names Sample.reportUtils Sample.optionsListUtils
  Sample.reportActionsUtils Sample.localize Sample.taskUtils Sample.policyUtils
  Sample.localePhoneNumber Sample.str Sample.draftCommentUtils Sample.locale.

Example orderedReportIDs_history :
  Sample.orderedReportIDs None Sample.history = ["3"; "2"; "1"; "5"; "6"]
  ∧ Sample.orderedReportIDs (Some "gsd") Sample.history = ["1"; "3"; "2"; "6"; "5"].
Proof. split; reflexivity. Qed.

Example orderedReportIDs_sidebar : Sample.orderedReportIDs None Sample.sidebar = ["7"; "3"].
Proof. reflexivity. Qed.





Lemma sample_tooltipPerParticipant : @tooltipPerParticipant Sample.reportUtils.
Proof. intros personalDetailsList ? ? ?. simpl. by rewrite length_fmap. Qed.

(** The chat of [Sample.groupChat] has twelve participants and ten
    tooltips. *)
Lemma displayNamesWithTooltips_first_ten_groupChat :
  ∃ result tooltips,
    Sample.optionRow (Sample.groupChat (Some 3)) = Normal (Some result)
    ∧ length (participantPersonalDetailList (Sample.groupChat (Some 3)) Sample.people) = 12%nat
    ∧ OptionData.displayNamesWithTooltips result = Some tooltips
    ∧ (length tooltips ≤ 10)%nat.
Proof.
  destruct (getOptionData_result ∅ None "en" None None false (Sample.groupChat (Some 3))
              Sample.people) as [text Hresult].
  destruct (displayNamesWithTooltips_first_ten ∅ None "en" None None false
              (Sample.groupChat (Some 3)) Sample.people _ sample_tooltipPerParticipant Hresult)
    as (tooltips & Htooltips & _ & _ & Hlength).
  eexists _, tooltips. split_and!; [exact Hresult|reflexivity|exact Htooltips|exact Hlength].
Defined.

(** The unread chat without a last actor is not shown as unread. *)
Lemma isUnread_needs_last_actor_groupChat :
  ReportUtils.isUnread (Sample.groupChat None) = true
  ∧ ∃ result,
      Sample.optionRow (Sample.groupChat None) = Normal (Some result)
      ∧ OptionData.isUnread result = Some false.
Proof.
  split; [reflexivity|].
  destruct (getOptionData_result ∅ None "en" None None false (Sample.groupChat None)
              Sample.people) as [text Hresult].
  eexists. split; [exact Hresult|].
  apply (isUnread_needs_last_actor ∅ None "en" None None false (Sample.groupChat None)
           Sample.people _
           (eq_refl : @ReportUtils.isJoinRequestInAdminRoom Sample.reportUtils
                        (Sample.groupChat None) = false)
           Hresult).
  reflexivity.
Defined.



(** Against C7 as stated: the only error of [Sample.failedScan] is the
    failed receipt scan and there are no violations, and the indicator
    is "error". *)
Lemma brickRoadIndicator_failed_scan :
  Sample.returned OptionData.brickRoadIndicator (Sample.optionRow Sample.failedScan)
  = Some CONST.BRICK_ROAD_INDICATOR_STATUS_ERROR
  ∧ hasErrorOtherThanFailedReceiptScan
      (OptionsListUtils.getAllReportErrors Sample.failedScan None) || false = false
  ∧ ReportUtils.isJoinRequestInAdminRoom Sample.failedScan = false.
Proof. split_and!; reflexivity. Qed.

End examples.

(** ** More on the comparators *)

Lemma compareStringDates_nonpos (a b : string) : compareStringDates a b ≤ 0 ↔ (a ≤ b)%string.
Proof.
  split; [apply compareStringDates_le|]. intros Hle. unfold compareStringDates.
  destruct (String.ltb a b) eqn:Hab; [done|].
  destruct (String.ltb b a) eqn:Hba; [|done].
  apply ltb_neq in Hba as Hne. apply ltb_le in Hba.
  destruct Hne. by apply (anti_symm String.le).
Qed.

Lemma compareStringDates_opp (a b : string) :
  compareStringDates a b = - compareStringDates b a.
Proof.
  unfold compareStringDates.
  destruct (String.ltb a b) eqn:Hab, (String.ltb b a) eqn:Hba; try done.
  pose proof (ltb_trans _ _ _ Hab Hba) as Haa. by rewrite ltb_irrefl in Haa.
Qed.

(** X1: [compareStringDates] orders the strings: exchanging the
    arguments changes the sign of the result, the result is 0 for
    equal strings only, and the order is transitive. *)
Theorem compareStringDates_order (a b c : string) :
  compareStringDates a b = - compareStringDates b a
  ∧ (compareStringDates a b = 0 ↔ a = b)
  ∧ (compareStringDates a b ≤ 0 → compareStringDates b c ≤ 0 → compareStringDates a c ≤ 0).
Proof.
  split_and!.
  - apply compareStringDates_opp.
  - apply compareStringDates_0.
  - rewrite !compareStringDates_nonpos. intros. by trans b.
Qed.

Lemma ConsistentOn_subseteq (compareFn : string → string → Z) (names names' : list string) :
  names ⊆ names' → ConsistentOn compareFn names' → ConsistentOn compareFn names.
Proof.
  intros Hsub [Htotal Htrans]. split.
  - intros a b Ha Hb. apply Htotal; by apply Hsub.
  - intros a b c Ha Hb Hc. apply Htrans; by apply Hsub.
Qed.

Section comparators.
Context `{!LocaleCompare}.
Implicit Types (a b : MiniReport.t).

Lemma compareDates_opp a b : compareDates a b = - compareDates b a.
Proof.
  unfold compareDates.
  destruct (MiniReport.lastVisibleActionCreated a) as [created_a|],
    (MiniReport.lastVisibleActionCreated b) as [created_b|]; try done.
  rewrite (andb_comm (truthy_string created_b)).
  destruct (_ && _); [|done]. apply compareStringDates_opp.
Qed.

(** X2: the comparators of the sort give opposite results for [(a, b)]
    and [(b, a)]: the one on the timestamps always, and it is 0 unless
    both reports have a timestamp and the timestamps differ; the ones
    that read the names when [localeCompare] does so on the two
    names. *)
Theorem comparators_antisymmetric a b :
  localeCompare (MiniReport.displayName a) (MiniReport.displayName b)
  = - localeCompare (MiniReport.displayName b) (MiniReport.displayName a) →
  compareDates a b = - compareDates b a
  ∧ (compareDates a b ≠ 0 → hasTimestamp a ∧ hasTimestamp b ∧ created a ≠ created b)
  ∧ compareDisplayNames a b = - compareDisplayNames b a
  ∧ compareDatesThenDisplayNames a b = - compareDatesThenDisplayNames b a.
Proof.
  intros Hnames.
  assert (compareDisplayNames a b = - compareDisplayNames b a) as Hdisplay.
  { unfold compareDisplayNames. rewrite (andb_comm (truthy_string (MiniReport.displayName b))).
    destruct (_ && _); [done|done]. }
  split_and!; [apply compareDates_opp| |done|].
  - unfold compareDates, hasTimestamp, created.
    destruct (MiniReport.lastVisibleActionCreated a) as [created_a|]; [|done].
    destruct (MiniReport.lastVisibleActionCreated b) as [created_b|]; [|done].
    simpl. destruct (truthy_string created_a), (truthy_string created_b); try done.
    simpl. intros Hne. split_and!; [done..|].
    intros ->. apply Hne. by apply compareStringDates_0.
  - unfold compareDatesThenDisplayNames. rewrite (compareDates_opp a b), Hdisplay.
    destruct (Z.eqb_spec (compareDates b a) 0) as [->|Hne]; simpl; [done|].
    destruct (Z.eqb_spec (- compareDates b a) 0); [lia|done].
Qed.

Context `{!CONST.Names}.

(** X3: sorting the groups moves no report: each of the five arrays
    keeps its reports, in either priority mode. *)
Theorem sortGroups_keeps_groups (isInDefaultMode : bool) (groups : Buckets.t) :
  let sorted := sortGroups isInDefaultMode groups in
  Buckets.pinnedAndGBRReports sorted ≡ₚ Buckets.pinnedAndGBRReports groups
  ∧ Buckets.errorReports sorted ≡ₚ Buckets.errorReports groups
  ∧ Buckets.draftReports sorted ≡ₚ Buckets.draftReports groups
  ∧ Buckets.nonArchivedReports sorted ≡ₚ Buckets.nonArchivedReports groups
  ∧ Buckets.archivedReports sorted ≡ₚ Buckets.archivedReports groups
  ∧ flatten sorted ≡ₚ flatten groups.
Proof.
  intros sorted. subst sorted. unfold sortGroups, flatten.
  destruct isInDefaultMode; simpl; rewrite !Array_sort_Permutation; done.
Qed.

(** X4: the pinned/GBR, the error and the draft group are sorted by
    display name whatever the priority mode and the timestamps are:
    the two modes give the same three arrays, other timestamps give the
    same order, and the names ascend when the reports of the three
    groups have names on which the comparison of the locale is
    consistent. *)
Theorem name_sorted_groups (isInDefaultMode : bool) (groups : Buckets.t) :
  let named :=
    Buckets.pinnedAndGBRReports groups ++ Buckets.errorReports groups
    ++ Buckets.draftReports groups in
  let sorted := sortGroups isInDefaultMode groups in
  Forall hasDisplayName named →
  ConsistentOn localeCompare (MiniReport.displayName <$> named) →
  (Buckets.pinnedAndGBRReports sorted
     = Buckets.pinnedAndGBRReports (sortGroups (negb isInDefaultMode) groups)
   ∧ Buckets.errorReports sorted
     = Buckets.errorReports (sortGroups (negb isInDefaultMode) groups)
   ∧ Buckets.draftReports sorted
     = Buckets.draftReports (sortGroups (negb isInDefaultMode) groups))
  ∧ (∀ retime : MiniReport.t → option string,
       let retimed := sortGroups isInDefaultMode (retimeGroups retime groups) in
       Buckets.pinnedAndGBRReports retimed
       = withTimestamp retime <$> Buckets.pinnedAndGBRReports sorted
       ∧ Buckets.errorReports retimed = withTimestamp retime <$> Buckets.errorReports sorted
       ∧ Buckets.draftReports retimed = withTimestamp retime <$> Buckets.draftReports sorted)
  ∧ StronglySorted byDisplayName (Buckets.pinnedAndGBRReports sorted)
  ∧ StronglySorted byDisplayName (Buckets.errorReports sorted)
  ∧ StronglySorted byDisplayName (Buckets.draftReports sorted).
Proof.
  intros named sorted. subst named sorted. rewrite !Forall_app, !fmap_app.
  intros (Hpinned & Herrors & Hdrafts) Hconsistent. split_and!.
  - by destruct isInDefaultMode.
  - by destruct isInDefaultMode.
  - by destruct isInDefaultMode.
  - intros retime. destruct isInDefaultMode; simpl;
      split_and!; apply compareDisplayNames_retime.
  - destruct isInDefaultMode; simpl; (apply compareDisplayNames_sorted; [done|]);
      (eapply ConsistentOn_subseteq; [|done]); intros name ?; rewrite !elem_of_app; tauto.
  - destruct isInDefaultMode; simpl; (apply compareDisplayNames_sorted; [done|]);
      (eapply ConsistentOn_subseteq; [|done]); intros name ?; rewrite !elem_of_app; tauto.
  - destruct isInDefaultMode; simpl; (apply compareDisplayNames_sorted; [done|]);
      (eapply ConsistentOn_subseteq; [|done]); intros name ?; rewrite !elem_of_app; tauto.
Qed.
End comparators.

(** ** The reports that [getOrderedReportIDs] keeps *)

Section filtering.
Context `{!CONST.Names, !ReportUtils.API, !OptionsListUtils.API,
          !ReportActionsUtils.API, !Localize.API, !DraftCommentUtils, !LocaleCompare}.
Variables
  (currentReportId : option string)
  (allReports : option (Obj (option Report.t)))
  (betas : option (list Beta))
  (policies : option (Obj (option Policy)))
  (priorityMode : option string)
  (allReportActions : option (gmap string ReportActions))
  (transactionViolations : option (Obj (option (list JSValue))))
  (currentPolicyID : option string)
  (policyMemberAccountIDs : option (list Z)).

#[local] Abbreviation shown :=
  (reportsToDisplay currentReportId allReports betas policies priorityMode allReportActions
     transactionViolations currentPolicyID policyMemberAccountIDs).
#[local] Abbreviation output :=
  (getOrderedReportIDs currentReportId allReports betas policies priorityMode allReportActions
     transactionViolations currentPolicyID policyMemberAccountIDs).
#[local] Abbreviation displayed :=
  (displayedReport currentReportId betas policies priorityMode allReportActions
     transactionViolations).
#[local] Abbreviation pushed := (pushedReport allReportActions betas transactionViolations).
#[local] Abbreviation hasErrorFlag :=
  (hasErrorsOtherThanFailedReceipt betas allReportActions transactionViolations).
#[local] Abbreviation overridden :=
  (shouldOverrideHidden currentReportId betas allReportActions transactionViolations).
#[local] Abbreviation inOptionList := (λ report,
  ReportUtils.shouldReportBeInOptionList report (default "-1" currentReportId)
    (isInFocusMode priorityMode) betas policies true
    (doesReportHaveViolations betas transactionViolations report) true).
#[local] Abbreviation isThread := (λ report,
  ReportUtils.isOneTransactionThread (Report.reportID report)
    (default "0" (Report.parentReportID report))).
#[local] Abbreviation scoped :=
  (truthy_string (default "" currentPolicyID)
   || (0 <? length (default [] policyMemberAccountIDs))%nat).
#[local] Abbreviation belongs :=
  (belongsToWorkspace currentReportId currentPolicyID policyMemberAccountIDs).

(** The first [forEach] pushes a report exactly when it is no
    one-transaction thread and has an error or passes the test of the
    notification preference and [shouldReportBeInOptionList]. *)
Lemma displayedReport_iff entry report' :
  displayed entry = Some report' ↔
  ∃ report, entry = Some report ∧ report' = pushed report
    ∧ isThread report = false
    ∧ (hasErrorFlag report = true
       ∨ ((isHidden report = false ∨ overridden report = true)
          ∧ inOptionList report = true)).
Proof.
  split.
  - destruct entry as [report|]; [|done].
    unfold displayedReport, pushedReport, shouldOverrideHidden.
    intros Hpushed. exists report. split; [done|].
    destruct (ReportUtils.isOneTransactionThread _ _); [done|].
    destruct (hasErrorsOtherThanFailedReceipt _ _ _ _); simpl in *.
    { split_and!; [congruence|done|by left]. }
    destruct (isHidden report); simpl in *.
    + destruct (isFocused _ _ || _ || _); simpl in *; [|done].
      destruct (ReportUtils.shouldReportBeInOptionList _ _ _ _ _ _ _ _); [|done].
      split_and!; [congruence|done|]. right. split; [by right|done].
    + destruct (ReportUtils.shouldReportBeInOptionList _ _ _ _ _ _ _ _); [|done].
      split_and!; [congruence|done|]. right. split; [by left|done].
  - intros (report & -> & -> & Hthread & Hkept).
    unfold displayedReport, pushedReport, shouldOverrideHidden in *. rewrite Hthread.
    destruct (hasErrorsOtherThanFailedReceipt _ _ _ _); [done|]. simpl in *.
    destruct Hkept as [?|[Hhidden ->]]; [done|].
    destruct Hhidden as [Hhidden|Hhidden]; rewrite Hhidden; [done|].
    by rewrite andb_false_r.
Qed.

Lemma reportsToDisplay_iff report' :
  report' ∈ shown ↔
  ∃ report, report ∈ inputReports allReports ∧ report' = pushed report
    ∧ isThread report = false
    ∧ (hasErrorFlag report = true
       ∨ ((isHidden report = false ∨ overridden report = true)
          ∧ inOptionList report = true))
    ∧ (scoped = true → belongs report' = true).
Proof.
  assert (report' ∈ omap displayed (allReportsDictValues allReports) ↔
          ∃ report, report ∈ inputReports allReports ∧ displayed (Some report) = Some report')
    as Homap.
  { unfold inputReports. rewrite list_elem_of_omap. split.
    - intros (entry & Hentry & Hdisplayed). destruct entry as [report|]; [|done].
      exists report. split; [|done]. apply list_elem_of_omap. by exists (Some report).
    - intros (report & Hin & Hdisplayed). exists (Some report). split; [|done].
      apply list_elem_of_omap in Hin as (entry & Hentry & Hsome). simpl in Hsome. by subst. }
  unfold reportsToDisplay. rewrite forEach_push_omap.
  destruct scoped eqn:Hscoped.
  - rewrite List_filter_elem_of, Homap. split.
    + intros [(report & Hin & Hdisplayed) Hbelongs].
      apply displayedReport_iff in Hdisplayed as (report0 & [= <-] & Hpushed & Hthread & Hkept).
      exists report. split_and!; done.
    + intros (report & Hin & Hpushed & Hthread & Hkept & Hbelongs).
      split; [|by apply Hbelongs]. exists report. split; [done|].
      apply displayedReport_iff. by exists report.
  - rewrite Homap. split.
    + intros (report & Hin & Hdisplayed).
      apply displayedReport_iff in Hdisplayed as (report0 & [= <-] & Hpushed & Hthread & Hkept).
      exists report. split_and!; done.
    + intros (report & Hin & Hpushed & Hthread & Hkept & _).
      exists report. split; [done|]. apply displayedReport_iff. by exists report.
Qed.

Lemma elem_of_output reportID :
  reportID ∈ output ↔ ∃ report', report' ∈ shown ∧ reportIdentifier report' = reportID.
Proof.
  rewrite output_Permutation, list_elem_of_fmap. split.
  - intros (report' & -> & Hin). by exists report'.
  - intros (report' & Hin & <-). by exists report'.
Qed.

(** X5: the output is made of identifiers of the collection, none more
    often than the collection has it: it is a rearrangement of a
    sub-sequence of the identifiers of the reports of the collection.
    So it is no longer than the collection, and it is empty when the
    collection is absent or has no report. *)
Theorem getOrderedReportIDs_from_collection :
  (∃ kept, kept `sublist_of` (reportIdentifier <$> inputReports allReports) ∧ output ≡ₚ kept)
  ∧ (length output ≤ length (default [] allReports))%nat
  ∧ (inputReports allReports = [] → output = []).
Proof.
  assert (length output ≤ length (inputReports allReports))%nat as Hlength.
  { rewrite output_Permutation.
    etrans; [apply sublist_length, identifiers_sublist|]. by rewrite length_fmap. }
  split_and!.
  - eexists. split; [apply identifiers_sublist|apply output_Permutation].
  - etrans; [exact Hlength|]. unfold inputReports, allReportsDictValues, Object_values.
    rewrite <- (length_map snd (default [] allReports)).
    induction (map snd (default [] allReports)) as [|[report|] entries IH]; csimpl in *; lia.
  - intros Hempty. rewrite Hempty in Hlength. by destruct output; [|simpl in Hlength; lia].
Qed.

(** X6: an identifier is in the output exactly when it is that of a
    report of the collection that is no one-transaction thread, that
    has an error other than the failed receipt scan or else is accepted
    by [shouldReportBeInOptionList] without being hidden (or with one
    of the overrides), and that, when a workspace or its members are
    given, is the focused report or belongs to the workspace. *)
Theorem getOrderedReportIDs_filters (reportID : string) :
  reportID ∈ output ↔
  ∃ report, report ∈ inputReports allReports
    ∧ reportIdentifier report = reportID
    ∧ ReportUtils.isOneTransactionThread (Report.reportID report)
        (default "0" (Report.parentReportID report)) = false
    ∧ (hasErrorsOtherThanFailedReceipt betas allReportActions transactionViolations report = true
       ∨ ((isHidden report = false
           ∨ shouldOverrideHidden currentReportId betas allReportActions transactionViolations
               report = true)
          ∧ ReportUtils.shouldReportBeInOptionList report (default "-1" currentReportId)
              (isInFocusMode priorityMode) betas policies true
              (doesReportHaveViolations betas transactionViolations report) true = true))
    ∧ (truthy_string (default "" currentPolicyID)
         || (0 <? length (default [] policyMemberAccountIDs))%nat = true →
       isFocused currentReportId report = true
       ∨ ReportUtils.doesReportBelongToWorkspace
           (pushedReport allReportActions betas transactionViolations report)
           (default [] policyMemberAccountIDs) (default "" currentPolicyID) = true).
Proof.
  assert (∀ report, belongs (pushed report) = true ↔
            isFocused currentReportId report = true
            ∨ ReportUtils.doesReportBelongToWorkspace (pushed report)
                (default [] policyMemberAccountIDs) (default "" currentPolicyID) = true)
    as Hbelongs.
  { intros report. unfold belongsToWorkspace, isFocused, pushedReport.
    rewrite orb_true_iff. by destruct (hasErrorsOtherThanFailedReceipt _ _ _ _). }
  rewrite elem_of_output. split.
  - intros (report' & Hin & <-).
    apply reportsToDisplay_iff in Hin as (report & Hin & -> & Hthread & Hkept & Hscope).
    exists report. rewrite reportIdentifier_pushedReport.
    split_and!; [done..|]. intros Hscoped. by apply Hbelongs, Hscope.
  - intros (report & Hin & <- & Hthread & Hkept & Hscope).
    exists (pushed report). rewrite reportIdentifier_pushedReport. split; [|done].
    apply reportsToDisplay_iff. exists report.
    split_and!; [done..|]. intros Hscoped. by apply Hbelongs, Hscope.
Qed.

(** X7: a report of the collection with an error other than the failed
    receipt scan (or with violations) is displayed whatever its
    notification preference is and whatever [shouldReportBeInOptionList]
    says, unless it is a one-transaction thread or outside the
    workspace; the copy that is displayed has the flag
    [hasErrorsOtherThanFailedReceipt], and is sorted in the error group
    unless it is pinned or requires attention, has a draft or is
    archived. *)
Theorem error_forces_display (report : Report.t) :
  let flagged := Report.with_hasErrorsOtherThanFailedReceipt report in
  report ∈ inputReports allReports →
  hasErrorsOtherThanFailedReceipt betas allReportActions transactionViolations report = true →
  ReportUtils.isOneTransactionThread (Report.reportID report)
    (default "0" (Report.parentReportID report)) = false →
  (truthy_string (default "" currentPolicyID)
     || (0 <? length (default [] policyMemberAccountIDs))%nat = true →
   belongsToWorkspace currentReportId currentPolicyID policyMemberAccountIDs flagged = true) →
  flagged ∈ shown
  ∧ reportIdentifier report ∈ output
  ∧ (bucketOf flagged = ErrorBucket
     ∨ isPinnedOrRequiresAttention flagged = true
     ∨ hasValidDraftComment (default "-1" (Report.reportID report)) = true
     ∨ ReportUtils.isArchivedRoom flagged = true).
Proof.
  intros flagged Hin Herror Hthread Hscope.
  assert (pushed report = flagged) as Hpushed.
  { unfold pushedReport. by rewrite Herror. }
  assert (flagged ∈ shown) as Hshown.
  { apply reportsToDisplay_iff. exists report. split_and!; [done..|by left|done]. }
  split_and!; [done| |].
  - apply elem_of_output. exists flagged. split; [done|].
    by rewrite <- Hpushed, reportIdentifier_pushedReport.
  - unfold bucketOf. destruct (isPinnedOrRequiresAttention flagged); [by auto|].
    change (Report.reportID flagged) with (Report.reportID report).
    destruct (hasValidDraftComment _); [by auto|].
    destruct (ReportUtils.isArchivedRoom flagged); [by auto|]. by left.
Qed.

(** X8: the focused report stays in the sidebar when a workspace is
    selected and when its notifications are hidden: if it is in the
    collection, is no one-transaction thread and has an error or is
    accepted by [shouldReportBeInOptionList], its identifier is in the
    output, whatever workspace and members are given. *)
Theorem focused_report_stays (report : Report.t) :
  report ∈ inputReports allReports →
  isFocused currentReportId report = true →
  ReportUtils.isOneTransactionThread (Report.reportID report)
    (default "0" (Report.parentReportID report)) = false →
  hasErrorsOtherThanFailedReceipt betas allReportActions transactionViolations report = true
  ∨ ReportUtils.shouldReportBeInOptionList report (default "-1" currentReportId)
      (isInFocusMode priorityMode) betas policies true
      (doesReportHaveViolations betas transactionViolations report) true = true →
  reportIdentifier report ∈ output.
Proof.
  intros Hin Hfocused Hthread Hkept.
  apply elem_of_output. exists (pushed report).
  rewrite reportIdentifier_pushedReport. split; [|done].
  apply reportsToDisplay_iff. exists report. split_and!; [done..| |].
  - destruct Hkept as [?|?]; [by left|right]. split; [|done]. right.
    unfold shouldOverrideHidden. rewrite Hfocused. by rewrite orb_true_r.
  - intros _. unfold belongsToWorkspace, pushedReport.
    destruct (hasErrorsOtherThanFailedReceipt _ _ _ _); simpl;
      unfold isFocused in Hfocused; by rewrite Hfocused.
Qed.
End filtering.

(** ** The subscription to the report actions *)

Section subscription_properties.
Context `{!CONST.Names, !CollectionUtils.API, !ReportActionsUtils.API}.

Lemma last_filter_Some {A} (p : A → bool) (l : list A) (x : A) :
  last (List.filter p l) = Some x → p x = true.
Proof.
  intros Hlast. assert (x ∈ List.filter p l) as Hin.
  { apply last_Some in Hlast as [l' ->]. apply elem_of_app. right. left. }
  by apply List_filter_elem_of in Hin as [_ ?].
Qed.

Lemma onReportActions_displayable (visibleReportActionItems : gmap string ReportAction.t)
    (actions : option ReportActions) (key : option string) :
  map_Forall (λ _ action, isDisplayableAction action = true) visibleReportActionItems →
  map_Forall (λ _ action, isDisplayableAction action = true)
    (onReportActions visibleReportActionItems actions key).
Proof.
  intros Hitems. unfold onReportActions.
  destruct actions as [actions|], key as [key|]; try done.
  destruct (negb (truthy_string key)); [done|].
  destruct (last _) as [action|] eqn:Hlast.
  - apply map_Forall_insert_2; [|done].
    by apply (last_filter_Some isDisplayableAction) in Hlast.
  - by apply map_Forall_delete.
Qed.

(** X9: whatever calls of the callback there were since the file was
    loaded, [visibleReportActionItems] holds for no report a CREATED
    action or an action that [shouldReportActionBeVisibleAsLastAction]
    turns down. *)
Theorem visibleReportActionItems_displayable
    (calls : list (option ReportActions * option string)) (reportID : string)
    (action : ReportAction.t) :
  afterCallbacks calls !! reportID = Some action →
  ReportAction.actionName action ≠ Some CONST.ACTIONS_TYPE_CREATED
  ∧ ReportActionsUtils.shouldReportActionBeVisibleAsLastAction action = true.
Proof.
  assert (∀ items, map_Forall (λ _ action, isDisplayableAction action = true) items →
            map_Forall (λ _ action, isDisplayableAction action = true)
              (fold_left (λ items call, onReportActions items (fst call) (snd call))
                 calls items)) as Hfold.
  { induction calls as [|call calls IH]; intros items Hitems; simpl; [done|].
    by apply IH, onReportActions_displayable. }
  intros Hlookup. apply (Hfold ∅ (map_Forall_empty _)) in Hlookup.
  unfold isDisplayableAction in Hlookup.
  apply andb_true_iff in Hlookup as [Hvisible Hcreated]. split; [|done].
  intros Hname. rewrite Hname in Hcreated. simpl in Hcreated.
  by rewrite String.eqb_refl in Hcreated.
Qed.

(** X10: a call of the callback with the actions of a report and a
    non-empty key sets the entry of that report to the last of the
    sorted actions that may be displayed ([undefined] when there is
    none) and leaves the entries of the other reports as they were; a
    second call with the same arguments changes nothing; a call
    without actions or without a key changes nothing. *)
Theorem onReportActions_entry (visibleReportActionItems : gmap string ReportAction.t)
    (actions : ReportActions) (key : string) :
  key ≠ "" →
  let reportID := CollectionUtils.extractCollectionItemID key in
  let after := onReportActions visibleReportActionItems (Some actions) (Some key) in
  after !! reportID
  = last (List.filter isDisplayableAction
            (ReportActionsUtils.getSortedReportActions (Object_values actions)))
  ∧ (∀ other, other ≠ reportID → after !! other = visibleReportActionItems !! other)
  ∧ onReportActions after (Some actions) (Some key) = after
  ∧ onReportActions visibleReportActionItems None (Some key) = visibleReportActionItems
  ∧ onReportActions visibleReportActionItems (Some actions) None = visibleReportActionItems
  ∧ onReportActions visibleReportActionItems (Some actions) (Some "")
    = visibleReportActionItems.
Proof.
  intros Hkey reportID after. subst reportID after.
  assert (truthy_string key = true) as Htruthy.
  { unfold truthy_string. by destruct key. }
  unfold onReportActions, isDisplayableAction. rewrite Htruthy. simpl.
  destruct (last _) as [action|] eqn:Hlast.
  - split_and!; [|intros other Hother|..]; try done.
    + by rewrite lookup_insert_eq.
    + by rewrite lookup_insert_ne.
    + by rewrite insert_insert_eq.
  - split_and!; [|intros other Hother|..]; try done.
    + by rewrite lookup_delete_eq.
    + by rewrite lookup_delete_ne.
    + by rewrite delete_delete_eq.
Qed.
End subscription_properties.

(** ** More on the record of [getOptionData] *)

Lemma truthy_string_app (a b : string) :
  truthy_string a = true → truthy_string (a +:+ b) = true.
Proof. by destruct a. Qed.

Lemma enumeration_cons (conjunction name : string) (names : list string) :
  enumeration conjunction (name :: names)
  = (name +:+ match names with
              | [] => "."
              | [_] => " " +:+ conjunction
              | _ => ","
              end) :: enumeration conjunction names.
Proof. by destruct names as [|second [|third names]]. Qed.

(** The callback of [map] at lines 403-417, for an array of [length]
    elements. *)
Lemma enumeration_imap (conjunction : string) (tooltips : list DisplayNameWithTooltip.t)
    (offset : nat) :
  imap (λ index tooltip,
          let length := Z.of_nat (offset + length tooltips) in
          if Z.of_nat (offset + index) =? length - 1 then formattedText tooltip +:+ "."
          else if Z.of_nat (offset + index) =? length - 2
          then formattedText tooltip +:+ " " +:+ conjunction
          else if Z.of_nat (offset + index) <? length - 2 then formattedText tooltip +:+ ","
          else "")
    tooltips
  = enumeration conjunction (formattedText <$> tooltips).
Proof.
  revert offset. induction tooltips as [|tooltip tooltips IH]; intros offset; [done|].
  rewrite imap_cons, fmap_cons, enumeration_cons. f_equal.
  - destruct tooltips as [|second [|third tooltips]]; simpl length; cbv zeta.
    + replace (Z.of_nat (offset + 0) =? Z.of_nat (offset + 1) - 1) with true
        by (symmetry; apply Z.eqb_eq; lia).
      done.
    + replace (Z.of_nat (offset + 0) =? Z.of_nat (offset + 2) - 1) with false
        by (symmetry; apply Z.eqb_neq; lia).
      replace (Z.of_nat (offset + 0) =? Z.of_nat (offset + 2) - 2) with true
        by (symmetry; apply Z.eqb_eq; lia).
      done.
    + replace (Z.of_nat (offset + 0) =? Z.of_nat (offset + S (S (S (length tooltips)))) - 1)
        with false by (symmetry; apply Z.eqb_neq; lia).
      replace (Z.of_nat (offset + 0) =? Z.of_nat (offset + S (S (S (length tooltips)))) - 2)
        with false by (symmetry; apply Z.eqb_neq; lia).
      replace (Z.of_nat (offset + 0) <? Z.of_nat (offset + S (S (S (length tooltips)))) - 2)
        with true by (symmetry; apply Z.ltb_lt; lia).
      done.
  - rewrite <- (IH (S offset)). apply imap_ext. intros index tooltip' _. simpl.
    by replace (offset + S index)%nat with (S (offset + index)) by lia;
       replace (offset + S (length tooltips))%nat with (S (offset + length tooltips)) by lia.
Qed.

Section option_row_more.
Context `{!CONST.Names, !ReportUtils.API, !OptionsListUtils.API, !ReportActionsUtils.API,
          !Localize.API, !TaskUtils.API, !PolicyUtils.API, !LocalePhoneNumber.API, !Str.API}.
Variables
  (visibleReportActionItems : gmap string ReportAction.t)
  (reportActions : option ReportActions)
  (preferredLocale : string)
  (policy : option Policy)
  (parentReportAction : option ReportAction.t)
  (hasViolations : bool).

(** X11: a join request in an admin room is shown pinned and unread,
    with the "info" indicator, whatever the report, its errors and
    [hasViolations] are. *)
Theorem join_request_pinned_unread (report : Report.t)
    (personalDetails : gmap Z PersonalDetails.t) :
  ReportUtils.isJoinRequestInAdminRoom report = true →
  ∃ result,
    getOptionData visibleReportActionItems (Some report) reportActions (Some personalDetails)
      preferredLocale policy parentReportAction hasViolations
    = Normal (Some result)
    ∧ OptionData.isPinned result = Some true
    ∧ OptionData.isUnread result = Some true
    ∧ OptionData.brickRoadIndicator result = Some CONST.BRICK_ROAD_INDICATOR_STATUS_INFO.
Proof.
  intros Hjoin.
  destruct (getOptionData_result visibleReportActionItems reportActions preferredLocale policy
              parentReportAction hasViolations report personalDetails) as [text ->].
  eexists. split; [done|]. simpl. by rewrite Hjoin.
Qed.

(** X12: the record has a login, an account or a phone number only for
    a chat with one person: a report with at most one participant
    whose personal details are known, that is no chat room, no policy
    expense chat and no expense report; they are those of that
    participant, and all three are absent when no participant is
    known. *)
Theorem login_of_single_participant (report : Report.t)
    (personalDetails : gmap Z PersonalDetails.t) :
  ∃ result,
    getOptionData visibleReportActionItems (Some report) reportActions (Some personalDetails)
      preferredLocale policy parentReportAction hasViolations
    = Normal (Some result)
    ∧ (is_Some (OptionData.login result) ∨ is_Some (OptionData.accountID result)
       ∨ is_Some (OptionData.phoneNumber result) →
       ∃ participant,
         participantPersonalDetailList report personalDetails = [participant]
         ∧ ReportUtils.isChatRoom report = false
         ∧ ReportUtils.isPolicyExpenseChat report = false
         ∧ ReportUtils.isExpenseReport report = false
         ∧ OptionData.login result = PersonalDetails.login participant
         ∧ OptionData.accountID result = PersonalDetails.accountID participant
         ∧ OptionData.phoneNumber result = PersonalDetails.phoneNumber participant).
Proof.
  destruct (getOptionData_result visibleReportActionItems reportActions preferredLocale policy
              parentReportAction hasViolations report personalDetails) as [text ->].
  eexists. split; [done|]. simpl.
  unfold hasMultipleParticipants, personalDetail.
  destruct (participantPersonalDetailList report personalDetails)
    as [|participant [|second participants]] eqn:Hlist; simpl.
  - destruct (ReportUtils.isChatRoom report || _ || _); simpl;
      intros [[? [=]]|[[? [=]]|[? [=]]]].
  - destruct (ReportUtils.isChatRoom report), (ReportUtils.isPolicyExpenseChat report),
      (ReportUtils.isExpenseReport report); simpl;
      try (by intros [[? [=]]|[[? [=]]|[? [=]]]]).
    intros _. by exists participant.
  - intros [[? [=]]|[[? [=]]|[? [=]]]].
Qed.

Ltac row_with_text := simpl; eexists _, _; split_and!; [reflexivity|reflexivity|done].

(** X13: the record always has an alternate text; for a report that is
    archived, or is no chat room, policy expense chat, thread or task
    and has no thread message, this text is the formatted login of the
    first participant or is not empty. *)
Theorem alternateText_defined (report : Report.t) (personalDetails : gmap Z PersonalDetails.t) :
  ∃ result text,
    getOptionData visibleReportActionItems (Some report) reportActions (Some personalDetails)
      preferredLocale policy parentReportAction hasViolations
    = Normal (Some result)
    ∧ OptionData.alternateText result = Some text
    ∧ ((ReportUtils.isChatRoom report || ReportUtils.isPolicyExpenseChat report
        || ReportUtils.isChatThread report || ReportUtils.isTaskReport report
        || isThreadMessage visibleReportActionItems report)
       && negb (ReportUtils.isArchivedRoom report) = false →
       text = formattedLogin report personalDetails ∨ text ≠ "").
Proof.
  assert (∀ text : string, truthy_string text = true → text ≠ "") as Htruthy.
  { by intros [|]. }
  unfold getOptionData, optionData, alternateText.
  destruct (_ && negb _).
  - destruct (ReportActionsUtils.isRenamedAction _); [row_with_text|].
    destruct (ReportActionsUtils.isTaskAction _); [row_with_text|].
    destruct (ReportActionsUtils.isRoomChangeLogAction _).
    { destruct (roomChangeLogText_Normal visibleReportActionItems preferredLocale report
                  personalDetails) as [text ->].
      row_with_text. }
    destruct (strict_eq _ _); [row_with_text|].
    destruct (_ && _ && _); [row_with_text|].
    destruct (strict_eq _ _); [row_with_text|].
    destruct (0 <? _)%nat; simpl.
    + destruct (truthy_string _); row_with_text.
    + destruct (ReportActionsUtils.getLastVisibleMessage _ _ _) as [message|]; simpl;
        [destruct (truthy_string message)|]; row_with_text.
  - simpl. eexists _, _. split_and!; [done..|]. intros _.
    destruct (_ && truthy_string _) eqn:Hgroup.
    + right. apply Htruthy, truthy_string_app.
      by apply andb_true_iff in Hgroup as [_ ?].
    + destruct (truthy_string (if negb _ then _ else _)) eqn:Htext; [|by left].
      right. by apply Htruthy.
Qed.

(** X14: the text for a chat without messages (lines 400-418) is the
    translated beginning of the chat history followed by the
    participants joined by spaces, with a comma after each but the
    last two, the translated "and" after the one before the last and a
    full stop after the last; the pronouns follow a name in
    parentheses.  No element of the text is empty (line 416 is not
    reached). *)
Theorem beginningOfChatHistory_enumeration (report : Report.t)
    (personalDetails : gmap Z PersonalDetails.t) :
  let names := formattedText <$> displayNamesWithTooltips report personalDetails in
  let parts := enumeration (Localize.translate preferredLocale "common.and" []) names in
  beginningOfChatHistory report personalDetails preferredLocale
  = Localize.translate preferredLocale "reportActionsView.beginningOfChatHistory" []
    +:+ String.concat " " parts
  ∧ length parts = length names
  ∧ Forall (λ part, part ≠ "") parts.
Proof.
  intros names parts. subst names parts. split_and!.
  - unfold beginningOfChatHistory. f_equal. f_equal.
    rewrite <- (enumeration_imap _ _ 0). apply imap_ext. by intros index tooltip _.
  - induction (formattedText <$> displayNamesWithTooltips report personalDetails)
      as [|name names IH]; [done|].
    rewrite enumeration_cons. simpl. by rewrite IH.
  - induction (formattedText <$> displayNamesWithTooltips report personalDetails)
      as [|name names IH]; [done|].
    rewrite enumeration_cons. constructor; [|done].
    destruct name; [|done]. by destruct names as [|second [|third names]].
Qed.
End option_row_more.

(** ** The sidebar and its rows together *)

Section sidebar_rows.
Context `{!CONST.Names, !ReportUtils.API, !OptionsListUtils.API, !ReportActionsUtils.API,
          !Localize.API, !TaskUtils.API, !PolicyUtils.API, !LocalePhoneNumber.API, !Str.API,
          !DraftCommentUtils, !LocaleCompare}.

(** X15: a report that [getOrderedReportIDs] lists for its errors has
    an indicator in its row: when [getOptionData] is given the actions
    of the report and the violations that [getOrderedReportIDs] looks
    at, the brick-road indicator of the record is "error", or "info"
    for a join request in an admin room; it is never empty. *)
Theorem listed_for_error_has_indicator
    (betas : option (list Beta)) (allReportActions : option (gmap string ReportActions))
    (transactionViolations : option (Obj (option (list JSValue))))
    (visibleReportActionItems : gmap string ReportAction.t) (preferredLocale : string)
    (policy : option Policy) (parentReportAction : option ReportAction.t)
    (report : Report.t) (personalDetails : gmap Z PersonalDetails.t) :
  hasErrorsOtherThanFailedReceipt betas allReportActions transactionViolations report = true →
  ∃ result,
    getOptionData visibleReportActionItems (Some report)
      (Some (reportActionsOf allReportActions report)) (Some personalDetails) preferredLocale
      policy parentReportAction (doesReportHaveViolations betas transactionViolations report)
    = Normal (Some result)
    ∧ OptionData.brickRoadIndicator result
      = Some (if ReportUtils.isJoinRequestInAdminRoom report
              then CONST.BRICK_ROAD_INDICATOR_STATUS_INFO
              else CONST.BRICK_ROAD_INDICATOR_STATUS_ERROR).
Proof.
  intros Herror.
  destruct (getOptionData_result visibleReportActionItems
              (Some (reportActionsOf allReportActions report)) preferredLocale policy
              parentReportAction (doesReportHaveViolations betas transactionViolations report)
              report personalDetails) as [text ->].
  eexists. split; [done|]. simpl.
  destruct (ReportUtils.isJoinRequestInAdminRoom report); [done|].
  unfold hasErrorsOtherThanFailedReceipt in Herror.
  destruct (doesReportHaveViolations betas transactionViolations report);
    [by rewrite orb_true_r|].
  simpl in Herror. unfold hasErrors, allReportErrors, reportActionsOf, Object_keys.
  destruct (default [] (OptionsListUtils.getAllReportErrors _ _)); [done|done].
Qed.
End sidebar_rows.

(** ** [PressableWithoutFeedback] *)

Lemma Obj_get_filter {V} (keep : string → bool) (key : string) (object : Obj V) :
  Obj_get key (List.filter (λ property, keep (fst property)) object)
  = if keep key then Obj_get key object else None.
Proof.
  unfold Obj_get. induction object as [|[name value] object IH]; simpl.
  - by destruct (keep key).
  - destruct (keep name) eqn:Hkeep; simpl.
    + destruct (String.eqb_spec name key) as [->|Hne]; simpl; [by rewrite Hkeep|done].
    + destruct (String.eqb_spec name key) as [->|Hne]; simpl; [|done].
      rewrite Hkeep in IH |- *. done.
Qed.

(** X16: [PressableWithoutFeedback] renders a [GenericPressable] with
    the ref it was given and with its props except the five feedback
    styles and the two haptics flags: these seven are absent from the
    props that are passed on, every other prop has the value it was
    given, and the props keep their order. *)
Theorem PressableWithoutFeedback_props (props : Obj JSValue) (ref : JSValue) (key : string) :
  let element := PressableWithoutFeedback props ref in
  Element.component element = "GenericPressable"
  ∧ Element.ref element = ref
  ∧ Obj_get key (Element.props element)
    = (if bool_decide (key ∈ feedbackProps) then None else Obj_get key props)
  ∧ Element.props element `sublist_of` props
  ∧ (∀ name, name ∈ Object_keys (Element.props element) ↔
       name ∈ Object_keys props ∧ name ∉ feedbackProps).
Proof.
  intros element. subst element. unfold PressableWithoutFeedback, restProps. simpl.
  split_and!; [done..| | |].
  - etrans; [exact (Obj_get_filter (λ name, negb (bool_decide (name ∈ feedbackProps)))
                      key props)|].
    by destruct (bool_decide _).
  - apply List_filter_sublist.
  - intros name. unfold Object_keys.
    change (@map (string * JSValue) string fst) with (@fmap list _ (string * JSValue) string fst).
    rewrite !list_elem_of_fmap. split.
    + intros (property & -> & Hin). apply List_filter_elem_of in Hin as [Hin Hkeep].
      split; [by exists property|].
      apply negb_true_iff, bool_decide_eq_false in Hkeep. done.
    + intros [(property & -> & Hin) Hnot]. exists property. split; [done|].
      apply List_filter_elem_of. split; [done|].
      by apply negb_true_iff, bool_decide_eq_false.
Qed.

(** ** The added properties on the stores of [Sample] and [Cases] *)

Section more_examples.
#[local] Existing Instances Sample.names Sample.reportUtils Sample.optionsListUtils
  Sample.reportActionsUtils Sample.localize Sample.taskUtils Sample.policyUtils
  Sample.localePhoneNumber Sample.str Sample.draftCommentUtils Sample.locale
  Cases.collectionUtils.

Example orderedReportIDs_attention :
  Sample.orderedReportIDs None Cases.attention = ["32"; "31"; "34"; "33"; "4"]
  ∧ Sample.orderedReportIDs (Some "gsd") Cases.attention = ["32"; "31"; "34"; "33"; "4"].
Proof. split; reflexivity. Qed.

Example orderedReportIDs_focused :
  Cases.orderedReportIDsIn None None Sample.sidebar = ["7"; "3"]
  ∧ Cases.orderedReportIDsIn None (Some "P1") Sample.sidebar = []
  ∧ Cases.orderedReportIDsIn (Some "3") (Some "P1") Sample.sidebar = ["3"]
  ∧ Cases.orderedReportIDsIn (Some "8") (Some "P1") Sample.sidebar = ["8"].
Proof. split_and!; reflexivity. Qed.

(** The comparators on two chats of [Sample.history]. *)
Lemma comparators_antisymmetric_history :
  let a := miniReport (Sample.chat "1" "a" "2023-01-01 10:00:00.000") in
  let b := miniReport (Sample.chat "2" "c" "2023-01-02 10:00:00.000") in
  (compareDates a b = 1 ∧ compareDisplayNames a b = -1)
  ∧ compareDates a b = - compareDates b a
  ∧ compareDisplayNames a b = - compareDisplayNames b a
  ∧ compareDatesThenDisplayNames a b = - compareDatesThenDisplayNames b a.
Proof.
  intros a b. split; [split; reflexivity|].
  destruct (comparators_antisymmetric a b) as (Hdates & _ & Hnames & Hboth); [reflexivity|].
  split_and!; [exact Hdates|exact Hnames|exact Hboth].
Defined.

(** The pinned chats, the chats with an error and the chat with the
    draft of [Cases.attention], sorted by name in the default mode. *)
Lemma name_sorted_groups_attention :
  let sorted := sortGroups true (Sample.groupsOf Cases.attention) in
  MiniReport.reportID <$> Buckets.pinnedAndGBRReports sorted = [Some "32"; Some "31"]
  ∧ StronglySorted byDisplayName (Buckets.pinnedAndGBRReports sorted)
  ∧ StronglySorted byDisplayName (Buckets.errorReports sorted)
  ∧ StronglySorted byDisplayName (Buckets.draftReports sorted).
Proof.
  intros sorted. split; [reflexivity|].
  destruct (name_sorted_groups true (Sample.groupsOf Cases.attention))
    as (_ & _ & Hpinned & Herrors & Hdrafts).
  - vm_compute. repeat constructor.
  - apply compareCodeUnits_consistent.
  - split_and!; [exact Hpinned|exact Herrors|exact Hdrafts].
Defined.

(** The chat of [Cases.errorStore] with hidden notifications and
    without a [type] is displayed for its error. *)
Lemma error_forces_display_errorStore :
  isHidden Cases.hiddenWithError = true
  ∧ Report.with_hasErrorsOtherThanFailedReceipt Cases.hiddenWithError
    ∈ reportsToDisplay None (Some Cases.errorStore) None None None None None None None
  ∧ reportIdentifier Cases.hiddenWithError
    ∈ getOrderedReportIDs None (Some Cases.errorStore) None None None None None None None
  ∧ Cases.orderedReportIDsIn None None Cases.errorStore = ["23"].
Proof.
  split; [reflexivity|].
  destruct (error_forces_display None (Some Cases.errorStore) None None None None None None None
              Cases.hiddenWithError) as (Hshown & Houtput & _).
  - vm_compute. left.
  - reflexivity.
  - reflexivity.
  - intros [=].
  - split_and!; [exact Hshown|exact Houtput|reflexivity].
Defined.

(** The focused chat of [Sample.sidebar] stays when a workspace that it
    does not belong to is selected. *)
Lemma focused_report_stays_sidebar :
  ReportUtils.doesReportBelongToWorkspace (Sample.chat "3" "d" "2023-01-02 10:00:00.000") []
    "P1" = false
  ∧ reportIdentifier (Sample.chat "3" "d" "2023-01-02 10:00:00.000")
    ∈ getOrderedReportIDs (Some "3") (Some Sample.sidebar) None None None None None (Some "P1")
        None.
Proof.
  split; [reflexivity|].
  apply (focused_report_stays (Some "3") (Some Sample.sidebar) None None None None None
           (Some "P1") None (Sample.chat "3" "d" "2023-01-02 10:00:00.000")).
  - vm_compute. right. right. left.
  - reflexivity.
  - reflexivity.
  - right. reflexivity.
Defined.

(** After the actions of two reports have come in, report 3 has its
    last comment and report 2, which has only its creation, has no
    entry. *)
Lemma visibleReportActionItems_displayable_actions :
  let calls :=
    [(Some Cases.created, Some "reportActions_2"); (Some Cases.actions, Some "reportActions_3")]
  in
  afterCallbacks calls !! "2" = None
  ∧ afterCallbacks calls !! "3" = Some (Cases.action "ADDCOMMENT" "bob")
  ∧ ReportAction.actionName (Cases.action "ADDCOMMENT" "bob") ≠ Some CONST.ACTIONS_TYPE_CREATED.
Proof.
  intros calls. split_and!; [reflexivity..|].
  apply (visibleReportActionItems_displayable calls "3" (Cases.action "ADDCOMMENT" "bob")).
  reflexivity.
Defined.

Lemma onReportActions_entry_actions :
  let after := onReportActions ∅ (Some Cases.actions) (Some "reportActions_3") in
  after !! "3" = Some (Cases.action "ADDCOMMENT" "bob")
  ∧ (∀ other, other ≠ "3" → after !! other = None)
  ∧ onReportActions after (Some Cases.actions) (Some "reportActions_3") = after.
Proof.
  intros after.
  destruct (onReportActions_entry ∅ Cases.actions "reportActions_3") as (Hentry & Hothers & Hagain & _);
    [done|].
  split_and!; [exact Hentry| |exact Hagain].
  intros other Hother. apply (Hothers other Hother).
Defined.

(** The row of the join request of [Cases]. *)
Lemma join_request_pinned_unread_joinRequest :
  Report.isPinned Cases.joinRequest = None
  ∧ ∃ result,
      Cases.optionRowWith ∅ Sample.people Cases.joinRequest = Normal (Some result)
      ∧ OptionData.isPinned result = Some true
      ∧ OptionData.isUnread result = Some true
      ∧ OptionData.brickRoadIndicator result = Some CONST.BRICK_ROAD_INDICATOR_STATUS_INFO.
Proof.
  split; [reflexivity|].
  apply (join_request_pinned_unread ∅ None "en" None None false Cases.joinRequest Sample.people).
  reflexivity.
Defined.

(** The chat of [Cases.errorStore] that is displayed for its error has
    the "error" indicator in its row. *)
Lemma listed_for_error_has_indicator_errorStore :
  ∃ result,
    Cases.optionRowWith ∅ Sample.people Cases.hiddenWithError = Normal (Some result)
    ∧ OptionData.brickRoadIndicator result = Some CONST.BRICK_ROAD_INDICATOR_STATUS_ERROR.
Proof.
  destruct (listed_for_error_has_indicator None None None ∅ "en" None None Cases.hiddenWithError
              Sample.people) as (result & Hresult & Hindicator); [reflexivity|].
  exists result. split; [exact Hresult|exact Hindicator].
Defined.

(** The rows of a room and of a chat with one person. *)
Example optionRow_room_and_direct :
  Sample.returned OptionData.login (Cases.optionRowWith ∅ Sample.people Cases.room) = None
  ∧ Sample.returned OptionData.login (Cases.optionRowWith ∅ Sample.people Cases.direct)
    = Some "user1@example.com"
  ∧ Sample.returned OptionData.alternateText
      (Cases.optionRowWith (afterCallbacks [(Some Cases.actions, Some "reportActions_20")])
         Sample.people Cases.room)
    = Some "user1: hello"
  ∧ Sample.returned OptionData.alternateText
      (Cases.optionRowWith ∅ Sample.people (Sample.groupChat None))
    = Some ("reportActionsView.beginningOfChatHistory"
            +:+ "user1, user2, user3, user4, user5, user6, user7, user8, user9 common.and user10.").
Proof. split_and!; reflexivity. Qed.
End more_examples.
